(** * youtube_downloader: the configuration mapping, the progress hook and
      the download service, embedded from [youtube_downloader/service.py]
      and [youtube_downloader/models/__init__.py].

    Python values of type [Any] are modelled by [pyval]; dictionaries are
    finite maps with string keys; code that may raise or that calls out
    (process logger, file system, callbacks, the wrapped library) lives in
    the monad [M], which threads a trace of observable events and carries
    the raised exception. *)

From Stdlib Require Import ZArith String Ascii List.
From Stdlib Require Import Floats.SpecFloat.
From stdpp Require Import gmap strings list fin_maps.

#[local] Set Warnings "-register-all".
#[local] Open Scope string_scope.

(** ** Python values *)

(** The JSON-like fragment of Python's [Any]: what yt-dlp puts in its info
    and progress dictionaries. *)
Inductive pyval : Type :=
  | VNone
  | VBool (b : bool)
  | VInt (z : Z)
  | VFloat (f : spec_float)
  | VStr (s : string)
  | VList (l : list pyval)
  | VDict (d : gmap string pyval).

(** [type(v).__name__] *)
Definition type_name (v : pyval) : string :=
  match v with
  | VNone => "NoneType"
  | VBool _ => "bool"
  | VInt _ => "int"
  | VFloat _ => "float"
  | VStr _ => "str"
  | VList _ => "list"
  | VDict _ => "dict"
  end.

(** [bool(v)]: [None], [False], zero, and empty containers are falsy. *)
Definition truthy (v : pyval) : bool :=
  match v with
  | VNone => false
  | VBool b => b
  | VInt z => negb (z =? 0)%Z
  | VFloat (S754_zero _) => false
  | VFloat _ => true
  | VStr s => negb (String.eqb s "")
  | VList l => negb (Nat.eqb (length l) 0)
  | VDict d => negb (Nat.eqb (size d) 0)
  end.

(** [a or b] *)
Definition py_or (a b : pyval) : pyval := if truthy a then a else b.

(** [v == s] for a string literal [s]: only an equal [str] compares equal. *)
Definition py_eq_str (v : pyval) (s : string) : bool :=
  match v with
  | VStr t => String.eqb t s
  | _ => false
  end.

(** [d.get(k)] and [d.get(k, dflt)] on a dictionary. *)
Definition dict_get (d : gmap string pyval) (k : string) : pyval :=
  default VNone (d !! k).

Definition dict_get_default (d : gmap string pyval) (k : string) (dflt : pyval) : pyval :=
  default dflt (d !! k).

(** Optional strings ([Optional[str]]) under [or] and [if]. *)
Definition opt_truthy (o : option string) : bool :=
  match o with
  | Some s => negb (String.eqb s "")
  | None => false
  end.

Definition opt_or (a b : option string) : option string :=
  if opt_truthy a then a else b.

(** A positive [int] or [float]. *)
Definition positive_number (v : pyval) : bool :=
  match v with
  | VInt z => (0 <? z)%Z
  | VFloat (S754_finite false _ _) | VFloat (S754_infinity false) => true
  | _ => false
  end.

(** [o is None] *)
Definition is_none {A} (o : option A) : bool :=
  match o with
  | Some _ => false
  | None => true
  end.

(** An [Optional[str]] as a value. *)
Definition of_opt_str (o : option string) : pyval :=
  match o with
  | Some s => VStr s
  | None => VNone
  end.

(** [a or b] on two [str]. *)
Definition str_or (a b : string) : string :=
  if String.eqb a "" then b else a.

(** ** Exceptions and outcomes *)

(** A raised exception: its class name and [str(exc)]. [Exn] is an
    instance of [Exception]; [BaseExn] is an instance of [BaseException]
    that is not one of [Exception] ([KeyboardInterrupt], [SystemExit],
    [GeneratorExit], asyncio's [CancelledError]), which an
    [except Exception] clause does not catch. *)
Inductive exn : Type :=
  | Exn (cls msg : string)
  | BaseExn (cls msg : string).

Definition exn_class (e : exn) : string :=
  match e with Exn cls _ | BaseExn cls _ => cls end.

(** [str(exc)] *)
Definition exn_str (e : exn) : string :=
  match e with Exn _ msg | BaseExn _ msg => msg end.

(** [isinstance(exc, Exception)] *)
Definition is_Exception (e : exn) : bool :=
  match e with Exn _ _ => true | BaseExn _ _ => false end.

Inductive outcome (A : Type) : Type :=
  | Returns (a : A)
  | Raises (e : exn).
Arguments Returns {A} a.
Arguments Raises {A} e.

Definition returned {A} (o : outcome A) : bool :=
  match o with Returns _ => true | Raises _ => false end.

(** Exceptions the interpreter itself raises on ill-shaped values
    (messages as CPython 3.12 prints them). *)
Definition AttributeError (v : pyval) (attr : string) : exn :=
  Exn "AttributeError" ("'" ++ type_name v ++ "' object has no attribute '" ++ attr ++ "'").

Definition TypeError_not_container (v : pyval) : exn :=
  Exn "TypeError" ("argument of type '" ++ type_name v ++ "' is not iterable").

Definition TypeError_not_iterable (v : pyval) : exn :=
  Exn "TypeError" ("'" ++ type_name v ++ "' object is not iterable").

Definition TypeError_index (v : pyval) : exn :=
  match v with
  | VStr _ => Exn "TypeError" "string indices must be integers, not 'str'"
  | VList _ => Exn "TypeError" "list indices must be integers or slices, not str"
  | _ => Exn "TypeError" ("'" ++ type_name v ++ "' object is not subscriptable")
  end.

(** [v.get(k, dflt)] on an arbitrary value: only dictionaries have [get]. *)
Definition attr_get (v : pyval) (k : string) (dflt : pyval) : outcome pyval :=
  match v with
  | VDict d => Returns (dict_get_default d k dflt)
  | _ => Raises (AttributeError v "get")
  end.

(** Is [needle] a substring of [s]? *)
Definition substring_of (needle s : string) : bool :=
  match String.index 0 needle s with
  | Some _ => true
  | None => false
  end.

(** [k in v] for a string literal [k]. *)
Definition py_contains (k : string) (v : pyval) : outcome bool :=
  match v with
  | VDict d => Returns (bool_decide (is_Some (d !! k)))
  | VList l => Returns (existsb (fun x => py_eq_str x k) l)
  | VStr s => Returns (substring_of k s)
  | _ => Raises (TypeError_not_container v)
  end.

(** [v[k]] for a string literal [k]. *)
Definition py_getitem (v : pyval) (k : string) : outcome pyval :=
  match v with
  | VDict d =>
      match d !! k with
      | Some x => Returns x
      | None => Raises (Exn "KeyError" ("'" ++ k ++ "'"))
      end
  | _ => Raises (TypeError_index v)
  end.

(** The items a [for] loop over [v] visits, or the [TypeError] it raises.
    A dictionary yields its keys, a string its characters. *)
Definition py_iter (v : pyval) : outcome (list pyval) :=
  match v with
  | VList l => Returns l
  | VDict d => Returns (VStr <$> (map_to_list d).*1)
  | VStr s => Returns ((fun c => VStr (String c EmptyString)) <$> list_ascii_of_string s)
  | _ => Raises (TypeError_not_iterable v)
  end.

(** ** Data model ([models/__init__.py]) *)

(** [Literal["downloading", "finished", "error"]] *)
Inductive status_tag : Type := Sdownloading | Sfinished | Serror.

(** [Literal["debug", "info", "warning", "error"]] *)
Inductive log_level : Type := Ldebug | Linfo | Lwarning | Lerror.

Record ProgressEvent : Type := mkProgressEvent {
  status : status_tag;
  downloaded_bytes : pyval;
  total_bytes : pyval;
  speed : pyval;
  eta : pyval;
  filename : pyval;
  raw : gmap string pyval;
}.

Record LogEvent : Type := mkLogEvent {
  level : log_level;
  message : string;
  context : option (gmap string pyval);
}.

Record DownloadResult : Type := mkDownloadResult {
  success : bool;
  filepaths : list pyval;
  info : pyval;
  errors : list string;
}.

(** A callback either returns or raises; its return value is ignored.
    The progress callback is also tested with [if on_progress], so it
    carries [bool(callback)]: true for every function, and for every
    callable object that defines neither [__bool__] nor [__len__]. *)
Record ProgressCallback : Type := mkProgressCallback {
  cb_call :> ProgressEvent -> outcome unit;
  cb_truthy : bool;
}.

(** [bool(on_progress)] for an [Optional[ProgressCallback]] *)
Definition callback_truthy (on_progress : option ProgressCallback) : bool :=
  match on_progress with
  | Some cb => cb_truthy cb
  | None => false
  end.
Definition LogCallback : Type := LogEvent -> outcome unit.

(** ** Observable events and the monad *)

Inductive event : Type :=
  | EvLogger (lvl : log_level) (msg : string)   (* a record handed to the process logger *)
  | EvMakedirs (path : string)                  (* os.makedirs(path, exist_ok=True) *)
  | EvOnLog (ev : LogEvent)                     (* on_log(ev) *)
  | EvOnProgress (ev : ProgressEvent).          (* on_progress(ev) *)

Definition M (A : Type) : Type := list event -> outcome A * list event.

Definition ret {A} (a : A) : M A := fun tr => (Returns a, tr).

Definition bind {A B} (m : M A) (k : A -> M B) : M B :=
  fun tr =>
    match m tr with
    | (Returns a, tr') => k a tr'
    | (Raises e, tr') => (Raises e, tr')
    end.

Definition lift {A} (o : outcome A) : M A := fun tr => (o, tr).

Definition emit (ev : event) : M unit := fun tr => (Returns tt, (tr ++ [ev])%list).

Declare Scope py_scope.
Delimit Scope py_scope with py.
Notation "x <- m ;; k" := (bind m (fun x => k))
  (at level 100, m at next level, right associativity) : py_scope.
Notation "m ;;; k" := (bind m (fun _ => k))
  (at level 100, right associativity) : py_scope.
#[local] Open Scope py_scope.

(** Calling the callbacks: the call is observable, and raises when the
    callback does. *)
Definition call_on_log (cb : LogCallback) (ev : LogEvent) : M unit :=
  emit (EvOnLog ev) ;;; lift (cb ev).

Definition call_on_progress (cb : ProgressCallback) (ev : ProgressEvent) : M unit :=
  emit (EvOnProgress ev) ;;; lift (cb ev).

(** The process logger ([self._logger]): each call hands one record over. *)
Definition logger_log (lvl : log_level) (msg : string) : M unit :=
  emit (EvLogger lvl msg).

(** ** The logger adapter ([class _YtDlpLogger]) *)

Module YtDlpLogger.

Record t : Type := mk { _on_log : option LogCallback }.

Definition _emit (self : t) (lvl : log_level) (msg : string) : M unit :=
  match _on_log self with
  | Some on_log => call_on_log on_log (mkLogEvent lvl msg None)
  | None => ret tt
  end.

Definition debug (self : t) (msg : string) : M unit :=
  logger_log Ldebug msg ;;; _emit self Ldebug msg.

Definition info (self : t) (msg : string) : M unit :=
  logger_log Linfo msg ;;; _emit self Linfo msg.

Definition warning (self : t) (msg : string) : M unit :=
  logger_log Lwarning msg ;;; _emit self Lwarning msg.

Definition error (self : t) (msg : string) : M unit :=
  logger_log Lerror msg ;;; _emit self Lerror msg.

End YtDlpLogger.

(** ** Option maps *)

(** A progress hook as yt-dlp sees it: called with the raw progress
    dictionary. *)
Definition hook : Type := gmap string pyval -> M unit.

(** Values of a yt-dlp option map: plain data, the logger object, or a list
    of hook functions. *)
Inductive optval : Type :=
  | OVal (v : pyval)
  | OLogger (l : YtDlpLogger.t)
  | OHooks (hs : list hook).

Record DownloadConfig : Type := mkDownloadConfig {
  url : string;
  output_dir : string;
  filename_template : string;
  format : string;
  audio_only : bool;
  playlist_items : option string;
  timeout : option Z;
  retries : Z;
  proxy : option string;
  extra_yt_dlp_options : gmap string optval;
}.

(** [DownloadConfig(url=u)]: every other field at its declared default. *)
Definition default_config (u : string) : DownloadConfig :=
  {| url := u;
     output_dir := "downloads";
     filename_template := "%(title)s.%(ext)s";
     format := "best";
     audio_only := false;
     playlist_items := None;
     timeout := None;
     retries := 3;
     proxy := None;
     extra_yt_dlp_options := ∅ |}.

(** [os.path.join(a, b)] (posixpath). *)
Definition starts_with_sep (s : string) : bool :=
  match s with
  | String c _ => Ascii.eqb c "/"%char
  | EmptyString => false
  end.

Fixpoint ends_with_sep (s : string) : bool :=
  match s with
  | EmptyString => false
  | String c EmptyString => Ascii.eqb c "/"%char
  | String _ rest => ends_with_sep rest
  end.

Definition os_path_join (a b : string) : string :=
  if starts_with_sep b then b
  else if String.eqb a "" || ends_with_sep a then a ++ b
  else a ++ "/" ++ b.

(** [d.setdefault(k, v)]: the value now stored under [k], and the dictionary. *)
Definition setdefault {V} (k : string) (v : V) (d : gmap string V) : V * gmap string V :=
  match d !! k with
  | Some x => (x, d)
  | None => (v, <[k := v]> d)
  end.

(** [d.update(other)]: the entries of [other] replace those of [d]. *)
Definition update {V} (d other : gmap string V) : gmap string V := other ∪ d.

(** [lst.append(x)] on the object stored in an option map. Only a list has
    [append]; in [_build_yt_dlp_options] the object is always the list that
    [setdefault] has just stored, no earlier step setting "postprocessors"
    (see [derived_postprocessors]). *)
Definition list_append (lst : optval) (x : pyval) : optval :=
  match lst with
  | OVal (VList l) => OVal (VList (l ++ [x])%list)
  | other => other
  end.

(** The post-processor entry of the audio-only mode. *)
Definition audio_postprocessor : pyval :=
  VDict {[ "key" := VStr "FFmpegExtractAudio";
           "preferredcodec" := VStr "mp3";
           "preferredquality" := VStr "192" ]}.

(** ** The service ([class YouTubeDownloadService]) *)

Record YouTubeDownloadService : Type := mkService {
  _default_output_dir : string;
  _default_proxy : option string;
}.

(** The wrapped library: [with yt_dlp.YoutubeDL(opts) as ydl:
    ydl.extract_info(url, download=...)]. It returns a value or raises, and
    on the way may call whatever the option map gives it (hooks, logger).
    Building the object and leaving the [with] block are part of this one
    behaviour; they are not given a way to raise of their own. *)
Record YoutubeDL : Type := mkYoutubeDL {
  extract_info : gmap string optval -> string -> bool -> M pyval;
}.

(** What the service runs on: the library and the file system. *)
Record Env : Type := mkEnv {
  yt_dlp : YoutubeDL;
  os_makedirs : string -> outcome unit;   (* os.makedirs(path, exist_ok=True) *)
}.

Definition status_of_raw (raw_status : pyval) : status_tag :=
  if py_eq_str raw_status "downloading" then Sdownloading
  else if py_eq_str raw_status "finished" then Sfinished
  else Serror.

(** [status.get("filename") or status.get("info_dict", {}).get("filename")] *)
Definition hook_filename (st : gmap string pyval) : outcome pyval :=
  let top := dict_get st "filename" in
  if truthy top then Returns top
  else attr_get (dict_get_default st "info_dict" (VDict ∅)) "filename" VNone.

(** The shape yt-dlp gives its progress dictionaries: "info_dict", when
    present, is itself a dictionary. *)
Definition info_dict_ok (st : gmap string pyval) : bool :=
  match st !! "info_dict" with
  | Some (VDict _) | None => true
  | Some _ => false
  end.

(** The nested metadata dictionary the file name falls back to:
    [status.get("info_dict", {})] when that is a dictionary. *)
Definition nested_info_dict (st : gmap string pyval) : gmap string pyval :=
  match st !! "info_dict" with
  | Some (VDict d) => d
  | _ => ∅
  end.

Definition _make_progress_hook (on_progress : option ProgressCallback) : hook :=
  fun st =>
    match on_progress with
    | None => ret tt
    | Some cb =>
        let event_status := status_of_raw (dict_get st "status") in
        name <- lift (hook_filename st) ;;
        call_on_progress cb
          {| status := event_status;
             downloaded_bytes := dict_get st "downloaded_bytes";
             total_bytes := py_or (dict_get st "total_bytes") (dict_get st "total_bytes_estimate");
             speed := dict_get st "speed";
             eta := dict_get st "eta";
             filename := name;
             raw := st |}
    end.

(** The option map as it stands just before the extra options are merged. *)
Definition derived_options (self : YouTubeDownloadService) (config : DownloadConfig)
    (out_dir : string) (on_progress : option ProgressCallback)
    (on_log : option LogCallback) : gmap string optval :=
  let ydl_opts : gmap string optval :=
    {[ "outtmpl" := OVal (VStr (os_path_join out_dir (filename_template config)));
       "format" := OVal (VStr (format config));
       "noplaylist" := OVal (VBool (is_none (playlist_items config)));
       "logger" := OLogger (YtDlpLogger.mk on_log);
       "progress_hooks" :=
         OHooks (if callback_truthy on_progress
                 then [_make_progress_hook on_progress]
                 else []);
       "retries" := OVal (VInt (retries config)) ]} in
  let effective_proxy := opt_or (proxy config) (_default_proxy self) in
  let ydl_opts :=
    if opt_truthy effective_proxy
    then <["proxy" := OVal (of_opt_str effective_proxy)]> ydl_opts
    else ydl_opts in
  let ydl_opts :=
    match timeout config with
    | Some t => <["socket_timeout" := OVal (VInt t)]> ydl_opts
    | None => ydl_opts
    end in
  let ydl_opts :=
    match playlist_items config with
    | Some items => <["playlist_items" := OVal (VStr items)]> ydl_opts
    | None => ydl_opts
    end in
  if audio_only config then
    let ydl_opts := (setdefault "format" (OVal (VStr "bestaudio/best")) ydl_opts).2 in
    let '(pps, ydl_opts) := setdefault "postprocessors" (OVal (VList [])) ydl_opts in
    <["postprocessors" := list_append pps audio_postprocessor]> ydl_opts
  else ydl_opts.

Definition _build_yt_dlp_options (self : YouTubeDownloadService) (config : DownloadConfig)
    (out_dir : string) (on_progress : option ProgressCallback)
    (on_log : option LogCallback) : gmap string optval :=
  update (derived_options self config out_dir on_progress on_log)
         (extra_yt_dlp_options config).

(** *** [get_info] *)

Definition get_info_options (self : YouTubeDownloadService) (proxy : option string)
    : gmap string optval :=
  let ydl_opts : gmap string optval :=
    {[ "skip_download" := OVal (VBool true);
       "quiet" := OVal (VBool true);
       "no_warnings" := OVal (VBool true) ]} in
  let effective_proxy := opt_or proxy (_default_proxy self) in
  if opt_truthy effective_proxy
  then <["proxy" := OVal (of_opt_str effective_proxy)]> ydl_opts
  else ydl_opts.

Definition get_info (self : YouTubeDownloadService) (env : Env)
    (url : string) (proxy : option string) : M pyval :=
  let ydl_opts := get_info_options self proxy in
  logger_log Ldebug ("Fetching info for URL " ++ url) ;;;
  info <- extract_info (yt_dlp env) ydl_opts url false ;;
  ret info.

(** *** [download] *)

(** The [for] loop over the requested downloads. [filepaths] is the list
    built so far; when an item raises, what was appended before it stays. *)
Fixpoint collect_filenames (items : list pyval) (filepaths : list pyval)
    : outcome unit * list pyval :=
  match items with
  | [] => (Returns tt, filepaths)
  | item :: rest =>
      match attr_get item "_filename" VNone with
      | Returns path =>
          collect_filenames rest
            (if truthy path then (filepaths ++ [path])%list else filepaths)
      | Raises e => (Raises e, filepaths)
      end
  end.

(** The statements that follow the library call inside the [with] block:
    how they end, and [filepaths] as they leave it. *)
Definition infer_filepaths (info : pyval) : outcome unit * list pyval :=
  match py_contains "_filename" info with
  | Raises e => (Raises e, [])
  | Returns true =>
      match py_getitem info "_filename" with
      | Returns path => (Returns tt, [path])
      | Raises e => (Raises e, [])
      end
  | Returns false =>
      match py_contains "requested_downloads" info with
      | Raises e => (Raises e, [])
      | Returns false => (Returns tt, [])
      | Returns true =>
          match attr_get info "requested_downloads" (VList []) with
          | Raises e => (Raises e, [])
          | Returns requested =>
              match py_iter requested with
              | Raises e => (Raises e, [])
              | Returns items => collect_filenames items []
              end
          end
      end
  end.


(** The local variables the [except] clause still sees. *)
Record locals : Type := mkLocals {
  l_filepaths : list pyval;
  l_info : pyval;
}.

(** The body of the [try]: how it ends, the locals, and the trace. *)
Definition download_try (env : Env) (ydl_opts : gmap string optval)
    (config : DownloadConfig) (tr : list event)
    : outcome unit * locals * list event :=
  match extract_info (yt_dlp env) ydl_opts (url config) true tr with
  | (Raises e, tr') => (Raises e, mkLocals [] (VDict ∅), tr')
  | (Returns info, tr') =>
      match infer_filepaths info with
      | (Raises e, paths) => (Raises e, mkLocals paths info, tr')
      | (Returns _, paths) =>
          (Returns tt, mkLocals paths info,
           (tr' ++ [EvLogger Linfo ("Download succeeded for URL " ++ url config)])%list)
      end
  end.

Definition effective_output_dir (self : YouTubeDownloadService)
    (config : DownloadConfig) : string :=
  str_or (output_dir config) (_default_output_dir self).

(** The [except Exception as exc] clause. *)
Definition download_except (config : DownloadConfig) (on_log : option LogCallback)
    (exc : exn) (l : locals) : M DownloadResult :=
  let msg := "Download failed for URL " ++ url config ++ ": " ++ exn_str exc in
  logger_log Lerror msg ;;;
  let errors := ([] ++ [exn_str exc])%list in
  match on_log with
  | Some cb => call_on_log cb (mkLogEvent Lerror msg None)
  | None => ret tt
  end ;;;
  ret (mkDownloadResult false (l_filepaths l) (l_info l) errors).

Definition download (self : YouTubeDownloadService) (env : Env)
    (config : DownloadConfig) (on_progress : option ProgressCallback)
    (on_log : option LogCallback) : M DownloadResult :=
  logger_log Linfo ("Starting download for URL " ++ url config) ;;;
  let out_dir := effective_output_dir self config in
  emit (EvMakedirs out_dir) ;;;
  lift (os_makedirs env out_dir) ;;;
  let ydl_opts := _build_yt_dlp_options self config out_dir on_progress on_log in
  fun tr =>
    match download_try env ydl_opts config tr with
    | (Returns _, l, tr') =>
        (Returns (mkDownloadResult true (l_filepaths l) (l_info l) []), tr')
    | (Raises exc, l, tr') =>
        if is_Exception exc then download_except config on_log exc l tr'
        else (Raises exc, tr')
    end.

(** The call [download] makes to the library once the output directory
    exists: the option map it passes and the trace at that point. *)
Definition download_call (self : YouTubeDownloadService) (env : Env)
    (config : DownloadConfig) (on_progress : option ProgressCallback)
    (on_log : option LogCallback) (tr : list event) : outcome pyval * list event :=
  extract_info (yt_dlp env)
    (_build_yt_dlp_options self config (effective_output_dir self config) on_progress on_log)
    (url config) true
    (tr ++ [EvLogger Linfo ("Starting download for URL " ++ url config);
            EvMakedirs (effective_output_dir self config)])%list.

(** ** Sample inputs

    Concrete services, configurations, callbacks, progress dictionaries,
    libraries and file systems on which the properties are exercised. *)
Definition demo_service : YouTubeDownloadService := mkService "downloads" None.

(** [DownloadConfig(url="https://example.org/v", audio_only=True)] *)
Definition audio_config : DownloadConfig :=
  {| url := "https://example.org/v";
     output_dir := "downloads";
     filename_template := "%(title)s.%(ext)s";
     format := "best";
     audio_only := true;
     playlist_items := None;
     timeout := None;
     retries := 3;
     proxy := None;
     extra_yt_dlp_options := ∅ |}.

(** The same with [extra_yt_dlp_options={"postprocessors": []}]. *)
Definition audio_config_no_pp : DownloadConfig :=
  {| url := "https://example.org/v";
     output_dir := "downloads";
     filename_template := "%(title)s.%(ext)s";
     format := "best";
     audio_only := true;
     playlist_items := None;
     timeout := None;
     retries := 3;
     proxy := None;
     extra_yt_dlp_options := {[ "postprocessors" := OVal (VList []) ]} |}.

(** [DownloadConfig(url=..., playlist_items="1-3",
    extra_yt_dlp_options={"format": "worst", "retries": 10})] *)
Definition override_config : DownloadConfig :=
  {| url := "https://example.org/v";
     output_dir := "downloads";
     filename_template := "%(title)s.%(ext)s";
     format := "best";
     audio_only := false;
     playlist_items := Some "1-3";
     timeout := None;
     retries := 3;
     proxy := None;
     extra_yt_dlp_options :=
       {[ "format" := OVal (VStr "worst"); "retries" := OVal (VInt 10) ]} |}.

Definition quiet_progress : ProgressCallback :=
  mkProgressCallback (fun _ => Returns tt) true.

(** A callable object whose [__bool__] answers [False]. *)
Definition falsy_progress : ProgressCallback :=
  mkProgressCallback (fun _ => Returns tt) false.
Definition quiet_log : LogCallback := fun _ => Returns tt.
Definition failing_log : LogCallback := fun _ => Raises (Exn "RuntimeError" "log sink closed").

(** [{"status": "downloading", "downloaded_bytes": 50, "total_bytes": 100}] *)
Definition exact_progress : gmap string pyval :=
  {[ "status" := VStr "downloading"; "downloaded_bytes" := VInt 50;
     "total_bytes" := VInt 100 ]}.

(** [{"status": "downloading", "downloaded_bytes": 50, "total_bytes": 0,
      "total_bytes_estimate": 100}] *)
Definition stalled_progress : gmap string pyval :=
  {[ "status" := VStr "downloading"; "downloaded_bytes" := VInt 50;
     "total_bytes" := VInt 0; "total_bytes_estimate" := VInt 100 ]}.

(** [{"status": "finished", "filename": "",
      "info_dict": {"filename": "clip.mp4"}}] *)
Definition renamed_progress : gmap string pyval :=
  {[ "status" := VStr "finished"; "filename" := VStr "";
     "info_dict" := VDict {[ "filename" := VStr "clip.mp4" ]} ]}.

(** [{"status": "downloading", "total_bytes": 0, "total_bytes_estimate": 100,
      "filename": "a.part", "info_dict": None}] *)
Definition named_stalled_progress : gmap string pyval :=
  {[ "status" := VStr "downloading"; "total_bytes" := VInt 0;
     "total_bytes_estimate" := VInt 100; "filename" := VStr "a.part";
     "info_dict" := VNone ]}.

(** [{"status": "downloading", "info_dict": None}] *)
Definition broken_progress : gmap string pyval :=
  {[ "status" := VStr "downloading"; "info_dict" := VNone ]}.

Definition returning_library (v : pyval) : YoutubeDL :=
  mkYoutubeDL (fun _ _ _ => ret v).

Definition raising_library (msg : string) : YoutubeDL :=
  mkYoutubeDL (fun _ _ _ => lift (Raises (Exn "DownloadError" msg))).

(** A library call cut short by Ctrl-C. *)
Definition interrupted_library : YoutubeDL :=
  mkYoutubeDL (fun _ _ _ => lift (Raises (BaseExn "KeyboardInterrupt" ""))).

(** A library call during which [sys.exit(1)] is reached. *)
Definition exiting_library : YoutubeDL :=
  mkYoutubeDL (fun _ _ _ => lift (Raises (BaseExn "SystemExit" "1"))).

(** A library that hands one progress dictionary to every installed hook
    and then returns [v]. *)
Definition run_hooks (opts : gmap string optval) (st : gmap string pyval) : M unit :=
  match opts !! "progress_hooks" with
  | Some (OHooks hs) => fold_right (fun (h : hook) k => h st ;;; k) (ret tt) hs
  | _ => ret tt
  end.

Definition reporting_library (st : gmap string pyval) (v : pyval) : YoutubeDL :=
  mkYoutubeDL (fun opts _ _ => run_hooks opts st ;;; ret v).

Definition failing_progress : ProgressCallback :=
  mkProgressCallback (fun _ => Raises (Exn "RuntimeError" "progress bar closed")) true.

Definition writable_fs : string -> outcome unit := fun _ => Returns tt.

Definition readonly_fs : string -> outcome unit :=
  fun path => Raises (Exn "PermissionError" ("[Errno 13] Permission denied: '" ++ path ++ "'")).

Definition plain_config : DownloadConfig := default_config "https://example.org/v".

(** [{"_filename": "a.mp4"}] *)
Definition one_file_info : gmap string pyval := {[ "_filename" := VStr "a.mp4" ]}.



Definition started (config : DownloadConfig) : list event :=
  [EvLogger Linfo ("Starting download for URL " ++ url config);
   EvMakedirs "downloads"].

(** ** Service construction, keyword arguments and the convenience methods *)

(** [YouTubeDownloadService.__init__]: the fields are stored and the
    default output directory is created. The logger it sets up when none is
    given is the process logger of the trace. *)
Definition __init__ (env : Env) (default_output_dir : string)
    (default_proxy : option string) : M YouTubeDownloadService :=
  let self := mkService default_output_dir default_proxy in
  emit (EvMakedirs (_default_output_dir self)) ;;;
  lift (os_makedirs env (_default_output_dir self)) ;;;
  ret self.

(** One entry of [**config_kwargs]: a field of [DownloadConfig] named by
    keyword, with a value of the field's declared type. A list of them
    stands for the keyword dictionary, in the caller's order. *)
Inductive kwarg : Type :=
  | kw_output_dir (v : string)
  | kw_filename_template (v : string)
  | kw_format (v : string)
  | kw_audio_only (v : bool)
  | kw_playlist_items (v : option string)
  | kw_timeout (v : option Z)
  | kw_retries (v : Z)
  | kw_proxy (v : option string)
  | kw_extra_yt_dlp_options (v : gmap string optval).

Definition kwarg_name (k : kwarg) : string :=
  match k with
  | kw_output_dir _ => "output_dir"
  | kw_filename_template _ => "filename_template"
  | kw_format _ => "format"
  | kw_audio_only _ => "audio_only"
  | kw_playlist_items _ => "playlist_items"
  | kw_timeout _ => "timeout"
  | kw_retries _ => "retries"
  | kw_proxy _ => "proxy"
  | kw_extra_yt_dlp_options _ => "extra_yt_dlp_options"
  end.

(** The dataclass constructor storing one keyword. *)
Definition set_field (config : DownloadConfig) (k : kwarg) : DownloadConfig :=
  match k with
  | kw_output_dir v =>
      mkDownloadConfig (url config) v (filename_template config) (format config)
        (audio_only config) (playlist_items config) (timeout config) (retries config)
        (proxy config) (extra_yt_dlp_options config)
  | kw_filename_template v =>
      mkDownloadConfig (url config) (output_dir config) v (format config)
        (audio_only config) (playlist_items config) (timeout config) (retries config)
        (proxy config) (extra_yt_dlp_options config)
  | kw_format v =>
      mkDownloadConfig (url config) (output_dir config) (filename_template config) v
        (audio_only config) (playlist_items config) (timeout config) (retries config)
        (proxy config) (extra_yt_dlp_options config)
  | kw_audio_only v =>
      mkDownloadConfig (url config) (output_dir config) (filename_template config)
        (format config) v (playlist_items config) (timeout config) (retries config)
        (proxy config) (extra_yt_dlp_options config)
  | kw_playlist_items v =>
      mkDownloadConfig (url config) (output_dir config) (filename_template config)
        (format config) (audio_only config) v (timeout config) (retries config)
        (proxy config) (extra_yt_dlp_options config)
  | kw_timeout v =>
      mkDownloadConfig (url config) (output_dir config) (filename_template config)
        (format config) (audio_only config) (playlist_items config) v (retries config)
        (proxy config) (extra_yt_dlp_options config)
  | kw_retries v =>
      mkDownloadConfig (url config) (output_dir config) (filename_template config)
        (format config) (audio_only config) (playlist_items config) (timeout config) v
        (proxy config) (extra_yt_dlp_options config)
  | kw_proxy v =>
      mkDownloadConfig (url config) (output_dir config) (filename_template config)
        (format config) (audio_only config) (playlist_items config) (timeout config)
        (retries config) v (extra_yt_dlp_options config)
  | kw_extra_yt_dlp_options v =>
      mkDownloadConfig (url config) (output_dir config) (filename_template config)
        (format config) (audio_only config) (playlist_items config) (timeout config)
        (retries config) (proxy config) v
  end.

(** [name in config_kwargs] *)
Definition kwargs_has (name : string) (config_kwargs : list kwarg) : bool :=
  existsb (fun k => String.eqb (kwarg_name k) name) config_kwargs.

(** [config_kwargs.setdefault(name, value)]: a new key goes last. *)
Definition kwargs_setdefault (k : kwarg) (config_kwargs : list kwarg) : list kwarg :=
  if kwargs_has (kwarg_name k) config_kwargs then config_kwargs
  else (config_kwargs ++ [k])%list.

(** The first keyword of [config_kwargs] that the call also passes
    explicitly: the one the interpreter complains about. *)
Definition first_clash (explicit config_kwargs : list kwarg) : option string :=
  kwarg_name <$> List.find (fun k => kwargs_has (kwarg_name k) explicit) config_kwargs.

(** [DownloadConfig(url=u, <explicit keywords>, **config_kwargs)] *)
Definition new_DownloadConfig (u : string) (explicit config_kwargs : list kwarg)
    : outcome DownloadConfig :=
  match first_clash explicit config_kwargs with
  | Some name =>
      Raises (Exn "TypeError"
                ("youtube_downloader.models.DownloadConfig() got multiple values for keyword argument '"
                 ++ name ++ "'"))
  | None => Returns (fold_left set_field (explicit ++ config_kwargs)%list (default_config u))
  end.

Definition download_video (self : YouTubeDownloadService) (env : Env) (u : string)
    (on_progress : option ProgressCallback) (on_log : option LogCallback)
    (config_kwargs : list kwarg) : M DownloadResult :=
  config <- lift (new_DownloadConfig u
                    [kw_output_dir (_default_output_dir self)] config_kwargs) ;;
  download self env config on_progress on_log.

Definition download_audio (self : YouTubeDownloadService) (env : Env) (u : string)
    (on_progress : option ProgressCallback) (on_log : option LogCallback)
    (config_kwargs : list kwarg) : M DownloadResult :=
  let config_kwargs := kwargs_setdefault (kw_format "bestaudio/best") config_kwargs in
  config <- lift (new_DownloadConfig u
                    [kw_output_dir (_default_output_dir self); kw_audio_only true]
                    config_kwargs) ;;
  download self env config on_progress on_log.

Definition download_playlist (self : YouTubeDownloadService) (env : Env) (u : string)
    (items : option string)
    (on_progress : option ProgressCallback) (on_log : option LogCallback)
    (config_kwargs : list kwarg) : M DownloadResult :=
  config <- lift (new_DownloadConfig u
                    [kw_output_dir (_default_output_dir self); kw_playlist_items items]
                    config_kwargs) ;;
  download self env config on_progress on_log.

(** ** The HTTP example ([api_example_fastapi.py]) *)

Module api_example_fastapi.

(** [service = YouTubeDownloadService(default_output_dir="downloads")] *)
Definition service : YouTubeDownloadService := mkService "downloads" None.

(** [class DownloadRequest(BaseModel)] *)
Record DownloadRequest : Type := mkDownloadRequest {
  url : string;
  audio_only : bool;
  playlist_items : option string;
  format : option string;
}.

(** [req.format or "best"] *)
Definition format_or_best (o : option string) : string :=
  match o with
  | Some f => str_or f "best"
  | None => "best"
  end.

(** The [DownloadConfig] the endpoint builds from the request body. *)
Definition config_of_request (req : DownloadRequest) : DownloadConfig :=
  mkDownloadConfig (url req) "downloads" "%(title)s.%(ext)s"
    (format_or_best (format req)) (audio_only req) (playlist_items req)
    None 3 None ∅.

(** [GET /info] *)
Definition get_info (env : Env) (u : string) : M pyval :=
  get_info service env u None.

(** [POST /download] *)
Definition download (env : Env) (req : DownloadRequest) : M (gmap string pyval) :=
  let config := config_of_request req in
  result <- download service env config None None ;;
  ret ({[ "success" := VBool (success result);
          "files" := VList (filepaths result);
          "errors" := VList (VStr <$> errors result) ]} : gmap string pyval).

End api_example_fastapi.

(** Further sample inputs. *)

(** A service whose default directory differs from [DownloadConfig]'s. *)
Definition media_service : YouTubeDownloadService :=
  mkService "media" (Some "socks5://127.0.0.1:9050").


(** [{"status": "downloading", "filename": "a.part", "info_dict": None}] *)
Definition named_broken_progress : gmap string pyval :=
  {[ "status" := VStr "downloading"; "filename" := VStr "a.part";
     "info_dict" := VNone ]}.


(** * Properties *)

(** ** The monad *)

Lemma bind_ret_l {A B} (a : A) (k : A -> M B) tr : bind (ret a) k tr = k a tr.
Proof. reflexivity. Qed.

Lemma bind_raises {A B} (m : M A) (k : A -> M B) tr e tr' :
  m tr = (Raises e, tr') -> bind m k tr = (Raises e, tr').
Proof. intros H. unfold bind. now rewrite H. Qed.

Lemma bind_returns {A B} (m : M A) (k : A -> M B) tr a tr' :
  m tr = (Returns a, tr') -> bind m k tr = k a tr'.
Proof. intros H. unfold bind. now rewrite H. Qed.

(** ** Dictionaries *)

Lemma update_lookup_extra {V} (d other : gmap string V) k v :
  other !! k = Some v -> update d other !! k = Some v.
Proof. intros H. unfold update. now apply lookup_union_Some_l. Qed.

Lemma update_lookup_derived {V} (d other : gmap string V) k :
  other !! k = None -> update d other !! k = d !! k.
Proof. intros H. unfold update. now apply lookup_union_r. Qed.

Lemma setdefault_present {V} k (v x : V) d :
  d !! k = Some x -> setdefault k v d = (x, d).
Proof. intros H. unfold setdefault. now rewrite H. Qed.

Lemma setdefault_absent {V} k (v : V) d :
  d !! k = None -> setdefault k v d = (v, <[k := v]> d).
Proof. intros H. unfold setdefault. now rewrite H. Qed.

(** ** The configuration mapping *)

Ltac mapping_cases config :=
  unfold _build_yt_dlp_options, derived_options, setdefault;
  destruct (opt_truthy _), (timeout config), (playlist_items config),
    (audio_only config); try reflexivity.

Section Mapping.

Variable self : YouTubeDownloadService.
Variable config : DownloadConfig.
Variable out_dir : string.
Variable on_progress : option ProgressCallback.
Variable on_log : option LogCallback.

Let derived := derived_options self config out_dir on_progress on_log.
Let final := _build_yt_dlp_options self config out_dir on_progress on_log.

Lemma derived_format :
  derived !! "format" = Some (OVal (VStr (format config))).
Proof. subst derived. mapping_cases config. Qed.

Lemma derived_noplaylist :
  derived !! "noplaylist" = Some (OVal (VBool (is_none (playlist_items config)))).
Proof. subst derived. mapping_cases config. Qed.

Lemma derived_playlist_items :
  derived !! "playlist_items" = (fun s => OVal (VStr s)) <$> playlist_items config.
Proof. subst derived. mapping_cases config. Qed.

Lemma derived_progress_hooks :
  derived !! "progress_hooks" =
  Some (OHooks (if callback_truthy on_progress
                then [_make_progress_hook on_progress]
                else [])).
Proof. subst derived. mapping_cases config. Qed.

Lemma derived_retries :
  derived !! "retries" = Some (OVal (VInt (retries config))).
Proof. subst derived. mapping_cases config. Qed.

(** [setdefault("postprocessors", [])] always stores the fresh empty
    list, so the audio-only branch leaves exactly the one entry it
    appends; without the branch the key is not set. *)
Lemma derived_postprocessors :
  derived !! "postprocessors" =
  if audio_only config then Some (OVal (VList [audio_postprocessor])) else None.
Proof. subst derived. mapping_cases config. Qed.

Lemma final_extra k v :
  extra_yt_dlp_options config !! k = Some v -> final !! k = Some v.
Proof. apply update_lookup_extra. Qed.

Lemma final_derived k :
  extra_yt_dlp_options config !! k = None -> final !! k = derived !! k.
Proof. apply update_lookup_derived. Qed.

End Mapping.

(** C1, as stated, fails: with [audio_only=True], the format left at its
    default and untouched by the extra options, the produced option map has
    format "best", not "bestaudio/best"; and extra options that carry their
    own "postprocessors" replace the audio-extraction entry (here by none). *)
Lemma audio_only_format_counterexample :
  let opts := _build_yt_dlp_options demo_service audio_config_no_pp "downloads" None None in
  audio_only audio_config_no_pp = true /\
  format audio_config_no_pp = format (default_config "https://example.org/v") /\
  extra_yt_dlp_options audio_config_no_pp !! "format" = None /\
  opts !! "format" = Some (OVal (VStr "best")) /\
  opts !! "format" <> Some (OVal (VStr "bestaudio/best")) /\
  opts !! "postprocessors" = Some (OVal (VList [])).
Proof. vm_compute. repeat split; try reflexivity. discriminate. Qed.

(** C1 (amended): for every DownloadConfig with [audio_only] set whose extra
    options carry no "postprocessors" key, the option map produced by
    [_build_yt_dlp_options] holds under "postprocessors" exactly one entry,
    the audio extraction with key FFmpegExtractAudio, codec mp3 and quality
    192. *)
Theorem audio_only_postprocessor self config out_dir on_progress on_log :
  audio_only config = true ->
  extra_yt_dlp_options config !! "postprocessors" = None ->
  _build_yt_dlp_options self config out_dir on_progress on_log !! "postprocessors"
  = Some (OVal (VList [VDict {[ "key" := VStr "FFmpegExtractAudio";
                                "preferredcodec" := VStr "mp3";
                                "preferredquality" := VStr "192" ]}])).
Proof.
  intros Haudio Hextra.
  rewrite (final_derived _ _ _ _ _ _ Hextra), derived_postprocessors, Haudio.
  reflexivity.
Qed.

Lemma audio_only_postprocessor_witness :
  _build_yt_dlp_options demo_service audio_config "downloads" None None !! "postprocessors"
  = Some (OVal (VList [VDict {[ "key" := VStr "FFmpegExtractAudio";
                                "preferredcodec" := VStr "mp3";
                                "preferredquality" := VStr "192" ]}])).
Proof.
  apply (audio_only_postprocessor demo_service audio_config "downloads" None None);
    reflexivity.
Defined.

(** C4: the extra options are merged into the derived option map last:
    every key present in [extra_yt_dlp_options] holds the extra option's
    value in the final option map, whatever was derived for that key, and
    every other key keeps what was derived. *)
Theorem extra_options_override self config out_dir on_progress on_log (k : string) :
  let derived := derived_options self config out_dir on_progress on_log in
  let final := _build_yt_dlp_options self config out_dir on_progress on_log in
  (forall v : optval, extra_yt_dlp_options config !! k = Some v -> final !! k = Some v) /\
  (extra_yt_dlp_options config !! k = None -> final !! k = derived !! k).
Proof.
  cbv zeta. split.
  - intros v. apply final_extra.
  - apply final_derived.
Qed.

Lemma extra_options_override_witness :
  (derived_options demo_service override_config "downloads" None None !! "format"
     = Some (OVal (VStr "best")) /\
   _build_yt_dlp_options demo_service override_config "downloads" None None !! "format"
     = Some (OVal (VStr "worst"))) /\
  (derived_options demo_service override_config "downloads" None None !! "retries"
     = Some (OVal (VInt 3)) /\
   _build_yt_dlp_options demo_service override_config "downloads" None None !! "retries"
     = Some (OVal (VInt 10))).
Proof.
  split; (split; [reflexivity|]).
  - apply (proj1 (extra_options_override demo_service override_config "downloads"
                    None None "format")).
    reflexivity.
  - apply (proj1 (extra_options_override demo_service override_config "downloads"
                    None None "retries")).
    reflexivity.
Defined.

(** C5: in the derived option map the noplaylist flag is true iff
    [playlist_items] is absent, and a present [playlist_items] is passed
    through verbatim (the key is not set when it is absent). The map
    [_build_yt_dlp_options] returns holds the same two entries unless the
    extra options name these keys themselves. *)
Theorem noplaylist_iff_playlist_items_absent self config out_dir on_progress on_log :
  let derived := derived_options self config out_dir on_progress on_log in
  let final := _build_yt_dlp_options self config out_dir on_progress on_log in
  (exists b : bool,
      derived !! "noplaylist" = Some (OVal (VBool b)) /\
      (b = true <-> playlist_items config = None)) /\
  derived !! "playlist_items" = (fun items => OVal (VStr items)) <$> playlist_items config /\
  (extra_yt_dlp_options config !! "noplaylist" = None ->
   final !! "noplaylist" = derived !! "noplaylist") /\
  (extra_yt_dlp_options config !! "playlist_items" = None ->
   final !! "playlist_items" = derived !! "playlist_items").
Proof.
  cbv zeta. repeat split.
  - exists (is_none (playlist_items config)). split; [apply derived_noplaylist|].
    destruct (playlist_items config); cbn; split; intros; congruence.
  - apply derived_playlist_items.
  - apply final_derived.
  - apply final_derived.
Qed.

Lemma noplaylist_iff_playlist_items_absent_witness :
  _build_yt_dlp_options demo_service override_config "downloads" None None !! "noplaylist"
  = derived_options demo_service override_config "downloads" None None !! "noplaylist".
Proof.
  apply (proj1 (proj2 (proj2
           (noplaylist_iff_playlist_items_absent demo_service override_config
              "downloads" None None)))).
  reflexivity.
Defined.

Example noplaylist_with_items :
  playlist_items override_config = Some "1-3" /\
  derived_options demo_service override_config "downloads" None None !! "noplaylist"
    = Some (OVal (VBool false)) /\
  derived_options demo_service override_config "downloads" None None !! "playlist_items"
    = Some (OVal (VStr "1-3")) /\
  derived_options demo_service plain_config "downloads" None None !! "noplaylist"
    = Some (OVal (VBool true)) /\
  derived_options demo_service plain_config "downloads" None None !! "playlist_items"
    = None.
Proof. repeat split; reflexivity. Qed.

(** C8, as stated, fails: a progress callback that is supplied but falsy
    (a callable object whose [__bool__] answers [False]) gets no hook: the
    entry is the empty list. *)
Lemma progress_hook_counterexample :
  derived_options demo_service plain_config "downloads" (Some falsy_progress) None
    !! "progress_hooks" = Some (OHooks []) /\
  _build_yt_dlp_options demo_service plain_config "downloads" (Some falsy_progress) None
    !! "progress_hooks" = Some (OHooks []).
Proof. split; reflexivity. Qed.

(** C8 (amended): the progress callback is tested for truthiness. Without a
    progress callback, or with one that is falsy, the derived option map's
    progress_hooks entry is the empty list; with a truthy callback (every
    plain function is one) it holds exactly one hook, the one made for
    that callback. The map [_build_yt_dlp_options] returns holds the same
    entry unless the extra options name the key themselves. *)
Theorem progress_hook_installed_iff_callback self config out_dir on_log :
  derived_options self config out_dir None on_log !! "progress_hooks"
    = Some (OHooks []) /\
  (forall cb : ProgressCallback,
      cb_truthy cb = false ->
      derived_options self config out_dir (Some cb) on_log !! "progress_hooks"
      = Some (OHooks [])) /\
  (forall cb : ProgressCallback,
      cb_truthy cb = true ->
      derived_options self config out_dir (Some cb) on_log !! "progress_hooks"
      = Some (OHooks [_make_progress_hook (Some cb)])) /\
  (forall on_progress : option ProgressCallback,
      extra_yt_dlp_options config !! "progress_hooks" = None ->
      _build_yt_dlp_options self config out_dir on_progress on_log !! "progress_hooks"
      = derived_options self config out_dir on_progress on_log !! "progress_hooks").
Proof.
  repeat split.
  - apply derived_progress_hooks.
  - intros cb Hcb. rewrite derived_progress_hooks. cbn [callback_truthy]. now rewrite Hcb.
  - intros cb Hcb. rewrite derived_progress_hooks. cbn [callback_truthy]. now rewrite Hcb.
  - intros on_progress. apply final_derived.
Qed.

Lemma progress_hook_installed_iff_callback_witness :
  _build_yt_dlp_options demo_service plain_config "downloads" None None !! "progress_hooks"
    = Some (OHooks []) /\
  _build_yt_dlp_options demo_service plain_config "downloads" (Some quiet_progress) None
    !! "progress_hooks"
    = Some (OHooks [_make_progress_hook (Some quiet_progress)]).
Proof.
  split.
  - rewrite (proj2 (proj2 (proj2 (progress_hook_installed_iff_callback demo_service
                                    plain_config "downloads" None))) None eq_refl).
    apply (proj1 (progress_hook_installed_iff_callback demo_service plain_config
                    "downloads" None)).
  - rewrite (proj2 (proj2 (proj2 (progress_hook_installed_iff_callback demo_service
                                    plain_config "downloads" None)))
               (Some quiet_progress) eq_refl).
    apply (proj1 (proj2 (proj2 (progress_hook_installed_iff_callback demo_service
                                  plain_config "downloads" None))) quiet_progress).
    reflexivity.
Defined.

(** C9: when the extra options carry no "format" key, the produced option
    map has "format" equal to [config.format], also when [audio_only] is
    set: the key is there before [setdefault] runs. *)
Theorem format_is_config_format self config out_dir on_progress on_log :
  extra_yt_dlp_options config !! "format" = None ->
  _build_yt_dlp_options self config out_dir on_progress on_log !! "format"
  = Some (OVal (VStr (format config))).
Proof.
  intros Hextra.
  rewrite (final_derived _ _ _ _ _ _ Hextra). apply derived_format.
Qed.

Lemma format_is_config_format_witness :
  audio_only audio_config = true /\
  _build_yt_dlp_options demo_service audio_config "downloads" None None !! "format"
  = Some (OVal (VStr "best")).
Proof.
  split; [reflexivity|].
  apply (format_is_config_format demo_service audio_config "downloads" None None).
  reflexivity.
Defined.

(** ** The progress hook *)

Lemma hook_filename_shaped st :
  info_dict_ok st = true ->
  hook_filename st =
  Returns (if truthy (dict_get st "filename") then dict_get st "filename"
           else dict_get (nested_info_dict st) "filename").
Proof.
  unfold info_dict_ok, hook_filename, nested_info_dict, dict_get_default.
  intros Hok. destruct (truthy (dict_get st "filename")); [reflexivity|].
  destruct (st !! "info_dict") as [[]|]; try discriminate; reflexivity.
Qed.

Lemma hook_delivers cb st tr name :
  hook_filename st = Returns name ->
  _make_progress_hook (Some cb) st tr =
  (cb (mkProgressEvent (status_of_raw (dict_get st "status"))
         (dict_get st "downloaded_bytes")
         (py_or (dict_get st "total_bytes") (dict_get st "total_bytes_estimate"))
         (dict_get st "speed") (dict_get st "eta") name st),
   (tr ++ [EvOnProgress
             (mkProgressEvent (status_of_raw (dict_get st "status"))
                (dict_get st "downloaded_bytes")
                (py_or (dict_get st "total_bytes") (dict_get st "total_bytes_estimate"))
                (dict_get st "speed") (dict_get st "eta") name st)])%list).
Proof.
  intros Hname. unfold _make_progress_hook, call_on_progress, bind, lift, emit.
  rewrite Hname. reflexivity.
Qed.

Lemma hook_raises cb st tr e :
  hook_filename st = Raises e ->
  _make_progress_hook (Some cb) st tr = (Raises e, tr).
Proof.
  intros Hname. unfold _make_progress_hook, bind, lift. rewrite Hname. reflexivity.
Qed.

Lemma status_of_raw_downloading st :
  st !! "status" = Some (VStr "downloading") ->
  status_of_raw (dict_get st "status") = Sdownloading.
Proof. intros H. unfold dict_get. rewrite H. reflexivity. Qed.

Lemma status_of_raw_finished st :
  st !! "status" = Some (VStr "finished") ->
  status_of_raw (dict_get st "status") = Sfinished.
Proof. intros H. unfold dict_get. rewrite H. reflexivity. Qed.

Lemma status_of_raw_other (st : gmap string pyval) :
  st !! "status" <> Some (VStr "downloading") ->
  st !! "status" <> Some (VStr "finished") ->
  status_of_raw (dict_get st "status") = Serror.
Proof.
  intros Hd Hf. unfold dict_get, status_of_raw.
  destruct (st !! "status") as [v|]; [|reflexivity].
  destruct v; try reflexivity. cbn.
  destruct (String.eqb_spec s "downloading") as [->|_]; [congruence|].
  destruct (String.eqb_spec s "finished") as [->|_]; [congruence|].
  reflexivity.
Qed.

Example hook_exact_progress :
  _make_progress_hook (Some quiet_progress) exact_progress [] =
  (Returns tt,
   [EvOnProgress (mkProgressEvent Sdownloading (VInt 50) (VInt 100) VNone VNone VNone
                    exact_progress)]).
Proof. reflexivity. Qed.

Example hook_without_callback st tr : _make_progress_hook None st tr = (Returns tt, tr).
Proof. reflexivity. Qed.

(** C3, as stated, fails: a raw dictionary whose exact total is present but
    zero delivers the estimate, not the raw total_bytes; and a raw
    dictionary whose "info_dict" is not a dictionary (and that has no
    top-level file name) delivers nothing, the hook raising instead. *)
Lemma progress_event_counterexample :
  (stalled_progress !! "total_bytes" = Some (VInt 0) /\
   _make_progress_hook (Some quiet_progress) stalled_progress [] =
   (Returns tt,
    [EvOnProgress (mkProgressEvent Sdownloading (VInt 50) (VInt 100) VNone VNone VNone
                     stalled_progress)]) /\
   VInt 100 <> VInt 0) /\
  _make_progress_hook (Some quiet_progress) broken_progress [] =
  (Raises (Exn "AttributeError" "'NoneType' object has no attribute 'get'"), []).
Proof. repeat split; try reflexivity. discriminate. Qed.

(** C3 (amended): for every raw progress dictionary whose "info_dict", when
    present, is a dictionary, the hook delivers one ProgressEvent to the
    callback: status "downloading" or "finished" when the raw status is
    that, "error" for any other raw status; downloaded_bytes as
    [status.get] gives it; total_bytes the raw total_bytes when that is
    truthy, else the raw total_bytes_estimate (so also when the exact total
    is None or 0); filename the top-level filename when that is truthy,
    else the nested info_dict filename; raw the dictionary itself. *)
Theorem progress_event_fields (cb : ProgressCallback) (st : gmap string pyval)
    (tr : list event) :
  info_dict_ok st = true ->
  exists ev : ProgressEvent,
    _make_progress_hook (Some cb) st tr = (cb ev, (tr ++ [EvOnProgress ev])%list) /\
    (st !! "status" = Some (VStr "downloading") -> status ev = Sdownloading) /\
    (st !! "status" = Some (VStr "finished") -> status ev = Sfinished) /\
    (st !! "status" <> Some (VStr "downloading") ->
     st !! "status" <> Some (VStr "finished") -> status ev = Serror) /\
    downloaded_bytes ev = dict_get st "downloaded_bytes" /\
    total_bytes ev =
      (if truthy (dict_get st "total_bytes") then dict_get st "total_bytes"
       else dict_get st "total_bytes_estimate") /\
    filename ev =
      (if truthy (dict_get st "filename") then dict_get st "filename"
       else dict_get (nested_info_dict st) "filename") /\
    raw ev = st.
Proof.
  intros Hok. eexists. split.
  - apply hook_delivers, hook_filename_shaped, Hok.
  - cbn [status downloaded_bytes total_bytes filename raw].
    repeat split; try reflexivity.
    + apply status_of_raw_downloading.
    + apply status_of_raw_finished.
    + apply status_of_raw_other.
Qed.

Lemma progress_event_fields_witness :
  exists ev : ProgressEvent,
    _make_progress_hook (Some quiet_progress) exact_progress [] =
      (quiet_progress ev, ([] ++ [EvOnProgress ev])%list) /\
    (exact_progress !! "status" = Some (VStr "downloading") -> status ev = Sdownloading) /\
    (exact_progress !! "status" = Some (VStr "finished") -> status ev = Sfinished) /\
    (exact_progress !! "status" <> Some (VStr "downloading") ->
     exact_progress !! "status" <> Some (VStr "finished") -> status ev = Serror) /\
    downloaded_bytes ev = dict_get exact_progress "downloaded_bytes" /\
    total_bytes ev =
      (if truthy (dict_get exact_progress "total_bytes")
       then dict_get exact_progress "total_bytes"
       else dict_get exact_progress "total_bytes_estimate") /\
    filename ev =
      (if truthy (dict_get exact_progress "filename")
       then dict_get exact_progress "filename"
       else dict_get (nested_info_dict exact_progress) "filename") /\
    raw ev = exact_progress.
Proof.
  apply (progress_event_fields quiet_progress exact_progress []). reflexivity.
Defined.

(** C10: the hook's fallbacks go by truthiness, not by key presence. For
    every raw dictionary whose total_bytes is 0 and whose
    total_bytes_estimate is positive, whatever event the hook delivers has
    the estimate as total_bytes, not 0 -- and it does deliver one, except
    in the one case where it delivers nothing at all (a falsy top-level
    filename with an "info_dict" that is not a dictionary). For every raw
    dictionary whose top-level filename is the empty string, the delivered
    event's filename is the nested info_dict filename (None when there is
    no "info_dict"). *)
Theorem fallbacks_by_truthiness (cb : ProgressCallback) (tr : list event) :
  (forall (st : gmap string pyval) (est : pyval),
      st !! "total_bytes" = Some (VInt 0) ->
      st !! "total_bytes_estimate" = Some est ->
      positive_number est = true ->
      (forall (o : outcome unit) (ev : ProgressEvent),
          _make_progress_hook (Some cb) st tr = (o, (tr ++ [EvOnProgress ev])%list) ->
          total_bytes ev = est /\ total_bytes ev <> VInt 0) /\
      ((exists ev : ProgressEvent,
           _make_progress_hook (Some cb) st tr = (cb ev, (tr ++ [EvOnProgress ev])%list) /\
           total_bytes ev = est /\ total_bytes ev <> VInt 0) \/
       (exists e : exn,
           _make_progress_hook (Some cb) st tr = (Raises e, tr) /\
           truthy (dict_get st "filename") = false /\ info_dict_ok st = false))) /\
  (forall (st : gmap string pyval),
      st !! "filename" = Some (VStr "") ->
      (forall (o : outcome unit) (ev : ProgressEvent),
          _make_progress_hook (Some cb) st tr = (o, (tr ++ [EvOnProgress ev])%list) ->
          filename ev = dict_get (nested_info_dict st) "filename") /\
      (forall d : gmap string pyval,
          st !! "info_dict" = Some (VDict d) ->
          exists ev : ProgressEvent,
            _make_progress_hook (Some cb) st tr = (cb ev, (tr ++ [EvOnProgress ev])%list) /\
            filename ev = dict_get d "filename") /\
      (st !! "info_dict" = None ->
       exists ev : ProgressEvent,
         _make_progress_hook (Some cb) st tr = (cb ev, (tr ++ [EvOnProgress ev])%list) /\
         filename ev = VNone)).
Proof.
  split.
  - intros st est Htotal Hest Hpos.
    assert (Htot : py_or (dict_get st "total_bytes") (dict_get st "total_bytes_estimate") = est)
      by (unfold py_or, dict_get; now rewrite Htotal, Hest).
    assert (Hne : est <> VInt 0) by (intros ->; discriminate).
    destruct (hook_filename st) as [name|e] eqn:Hname.
    + pose proof (hook_delivers cb st tr name Hname) as Hrun.
      rewrite Htot in Hrun. split.
      * intros o ev Hev. rewrite Hrun in Hev.
        injection Hev as _ Htr. apply app_inv_head in Htr.
        injection Htr as <-. split; [reflexivity | exact Hne].
      * left. eexists. split; [exact Hrun|]. split; [reflexivity | exact Hne].
    + pose proof (hook_raises cb st tr e Hname) as Hrun. split.
      * intros o ev Hev. rewrite Hrun in Hev. injection Hev as _ Htr.
        apply (f_equal (@length event)) in Htr. rewrite length_app in Htr.
        cbn in Htr. lia.
      * right. exists e. split; [exact Hrun|].
        unfold hook_filename in Hname.
        destruct (truthy (dict_get st "filename")); [discriminate|].
        split; [reflexivity|].
        destruct (info_dict_ok st) eqn:Hok; [|reflexivity].
        unfold info_dict_ok in Hok. unfold dict_get_default in Hname.
        destruct (st !! "info_dict") as [[]|]; discriminate.
  - intros st Hname. split; [|split].
    + intros o ev Hev.
      destruct (hook_filename st) as [name|e] eqn:Hfile.
      * rewrite (hook_delivers cb st tr name Hfile) in Hev.
        injection Hev as _ Htr. apply app_inv_head in Htr. injection Htr as <-.
        cbn [filename]. unfold hook_filename, dict_get at 1 2 in Hfile.
        rewrite Hname in Hfile. cbn in Hfile.
        unfold nested_info_dict, dict_get_default in *.
        destruct (st !! "info_dict") as [[]|]; cbn in Hfile; try discriminate;
          now injection Hfile as <-.
      * rewrite (hook_raises cb st tr e Hfile) in Hev. injection Hev as _ Htr.
        apply (f_equal (@length event)) in Htr. rewrite length_app in Htr.
        cbn in Htr. lia.
    + intros d Hinfo. eexists. split.
      * apply hook_delivers, hook_filename_shaped.
        unfold info_dict_ok. rewrite Hinfo. reflexivity.
      * cbn [filename]. unfold nested_info_dict, dict_get at 1 2.
        rewrite Hname, Hinfo. reflexivity.
    + intros Hinfo. eexists. split.
      * apply hook_delivers, hook_filename_shaped.
        unfold info_dict_ok. rewrite Hinfo. reflexivity.
      * cbn [filename]. unfold nested_info_dict, dict_get at 1 2.
        rewrite Hname, Hinfo. reflexivity.
Qed.

Lemma fallbacks_by_truthiness_witness :
  (forall (o : outcome unit) (ev : ProgressEvent),
      _make_progress_hook (Some quiet_progress) named_stalled_progress [] =
        (o, ([] ++ [EvOnProgress ev])%list) ->
      total_bytes ev = VInt 100 /\ total_bytes ev <> VInt 0) /\
  (exists ev : ProgressEvent,
      _make_progress_hook (Some quiet_progress) renamed_progress [] =
        (quiet_progress ev, ([] ++ [EvOnProgress ev])%list) /\
      filename ev = dict_get {[ "filename" := VStr "clip.mp4" ]} "filename").
Proof.
  split.
  - apply (proj1 (proj1 (fallbacks_by_truthiness quiet_progress [])
                    named_stalled_progress (VInt 100) eq_refl eq_refl eq_refl)).
  - apply (proj1 (proj2 (proj2 (fallbacks_by_truthiness quiet_progress []) renamed_progress
                           eq_refl)) {[ "filename" := VStr "clip.mp4" ]}).
    reflexivity.
Defined.

Example hook_named_stalled_progress :
  _make_progress_hook (Some quiet_progress) named_stalled_progress [] =
  (Returns tt,
   [EvOnProgress (mkProgressEvent Sdownloading VNone (VInt 100) VNone VNone
                    (VStr "a.part") named_stalled_progress)]).
Proof. reflexivity. Qed.

(** ** The download service *)







Section Download.

Variable self : YouTubeDownloadService.
Variable env : Env.
Variable config : DownloadConfig.
Variable on_progress : option ProgressCallback.
Variable on_log : option LogCallback.

Lemma download_makedirs_raises tr e :
  os_makedirs env (effective_output_dir self config) = Raises e ->
  download self env config on_progress on_log tr =
  (Raises e,
   (tr ++ [EvLogger Linfo ("Starting download for URL " ++ url config);
           EvMakedirs (effective_output_dir self config)])%list).
Proof.
  intros Hfs. unfold download, logger_log, bind, emit, lift. rewrite Hfs.
  now rewrite <- app_assoc.
Qed.

Lemma download_library_raises tr e tr1 :
  os_makedirs env (effective_output_dir self config) = Returns tt ->
  download_call self env config on_progress on_log tr = (Raises e, tr1) ->
  is_Exception e = true ->
  download self env config on_progress on_log tr =
  download_except config on_log e (mkLocals [] (VDict ∅)) tr1.
Proof.
  intros Hfs Hcall Hexc. unfold download_call in Hcall.
  unfold download, logger_log, bind, emit, lift, download_try. rewrite Hfs.
  rewrite <- app_assoc. cbn [app]. rewrite Hcall, Hexc. reflexivity.
Qed.

(** [except Exception] lets anything else through. *)
Lemma download_library_raises_base tr e tr1 :
  os_makedirs env (effective_output_dir self config) = Returns tt ->
  download_call self env config on_progress on_log tr = (Raises e, tr1) ->
  is_Exception e = false ->
  download self env config on_progress on_log tr = (Raises e, tr1).
Proof.
  intros Hfs Hcall Hexc. unfold download_call in Hcall.
  unfold download, logger_log, bind, emit, lift, download_try. rewrite Hfs.
  rewrite <- app_assoc. cbn [app]. rewrite Hcall, Hexc. reflexivity.
Qed.


Lemma download_except_returns exc l tr :
  (forall cb, on_log = Some cb -> forall ev, cb ev = Returns tt) ->
  exists tr',
    download_except config on_log exc l tr =
    (Returns (mkDownloadResult false (l_filepaths l) (l_info l) [exn_str exc]), tr').
Proof.
  intros Hquiet. unfold download_except, logger_log, call_on_log, bind, emit, lift, ret.
  destruct on_log as [cb|]; [|eauto].
  rewrite (Hquiet cb eq_refl). eauto.
Qed.

Lemma download_except_raises cb exc l tr e :
  on_log = Some cb ->
  cb (mkLogEvent Lerror
        ("Download failed for URL " ++ url config ++ ": " ++ exn_str exc) None)
    = Raises e ->
  fst (download_except config on_log exc l tr) = Raises e.
Proof.
  intros -> Hcb. unfold download_except, logger_log, call_on_log, bind, emit, lift.
  rewrite Hcb. reflexivity.
Qed.

End Download.

Example download_network_unreachable :
  download demo_service (mkEnv (raising_library "network unreachable") writable_fs)
    plain_config None None [] =
  (Returns (mkDownloadResult false [] (VDict ∅) ["network unreachable"]),
   (started plain_config ++
    [EvLogger Lerror
       "Download failed for URL https://example.org/v: network unreachable"])%list).
Proof. vm_compute. reflexivity. Qed.

Example download_one_file :
  download demo_service (mkEnv (returning_library (VDict one_file_info)) writable_fs)
    plain_config None None [] =
  (Returns (mkDownloadResult true [VStr "a.mp4"] (VDict one_file_info) []),
   (started plain_config ++
    [EvLogger Linfo "Download succeeded for URL https://example.org/v"])%list).
Proof. vm_compute. reflexivity. Qed.

(** The installed hook is live: a library that reports progress reaches the
    callback, and a callback that raises there makes the library call raise,
    which [download] answers with a failure result. *)
Example download_reports_progress :
  download demo_service
    (mkEnv (reporting_library exact_progress (VDict one_file_info)) writable_fs)
    plain_config (Some quiet_progress) None [] =
  (Returns (mkDownloadResult true [VStr "a.mp4"] (VDict one_file_info) []),
   (started plain_config ++
    [EvOnProgress (mkProgressEvent Sdownloading (VInt 50) (VInt 100) VNone VNone VNone
                     exact_progress);
     EvLogger Linfo "Download succeeded for URL https://example.org/v"])%list).
Proof. vm_compute. reflexivity. Qed.

Example download_progress_callback_raises :
  fst (download demo_service
         (mkEnv (reporting_library exact_progress (VDict one_file_info)) writable_fs)
         plain_config (Some failing_progress) None []) =
  Returns (mkDownloadResult false [] (VDict ∅) ["progress bar closed"]).
Proof. vm_compute. reflexivity. Qed.







(** ** Metadata fetch *)

(** C7, as stated, fails in its last clause: [download] does raise. A
    [SystemExit] out of the library call passes [except Exception]; a log
    callback that raises inside the [except] clause is not shielded; and
    the directory is created before the [try]. *)
Lemma download_raises_counterexample :
  download demo_service (mkEnv exiting_library writable_fs)
    plain_config (Some quiet_progress) None [] =
  (Raises (BaseExn "SystemExit" "1"), started plain_config)
  /\
  fst (download demo_service (mkEnv (raising_library "HTTP Error 403: Forbidden") writable_fs)
         plain_config (Some quiet_progress) (Some failing_log) [])
  = Raises (Exn "RuntimeError" "log sink closed")
  /\
  fst (download demo_service (mkEnv (raising_library "HTTP Error 403: Forbidden") readonly_fs)
         plain_config (Some quiet_progress) None [])
  = Raises (Exn "PermissionError" "[Errno 13] Permission denied: 'downloads'").
Proof. vm_compute. repeat split; reflexivity. Qed.

(** C7 (amended): [get_info] hands back whatever the library's metadata
    fetch gives: the raw metadata map when it returns, and the very
    exception it raised when it raises (no local catch). In contrast,
    [download] answers an instance of [Exception] raised by the library
    with a failure result instead of raising, as long as the output
    directory could be created and the log callback does not raise; an
    exception that is not an [Exception] leaves [download] unchanged as
    well. *)
Theorem get_info_propagates self env (u : string) (proxy : option string) tr :
  let call :=
    extract_info (yt_dlp env) (get_info_options self proxy) u false
      (tr ++ [EvLogger Ldebug ("Fetching info for URL " ++ u)])%list in
  get_info self env u proxy tr = call /\
  (forall v tr', call = (Returns v, tr') ->
                 get_info self env u proxy tr = (Returns v, tr')) /\
  (forall e tr', call = (Raises e, tr') ->
                 get_info self env u proxy tr = (Raises e, tr')) /\
  (forall config on_progress on_log e tr1,
      os_makedirs env (effective_output_dir self config) = Returns tt ->
      (forall cb, on_log = Some cb -> forall ev, cb ev = Returns tt) ->
      download_call self env config on_progress on_log tr = (Raises e, tr1) ->
      is_Exception e = true ->
      exists tr',
        download self env config on_progress on_log tr =
        (Returns (mkDownloadResult false [] (VDict ∅) [exn_str e]), tr')) /\
  (forall config on_progress on_log e tr1,
      os_makedirs env (effective_output_dir self config) = Returns tt ->
      download_call self env config on_progress on_log tr = (Raises e, tr1) ->
      is_Exception e = false ->
      download self env config on_progress on_log tr = (Raises e, tr1)).
Proof.
  cbv zeta.
  assert (Hcall : get_info self env u proxy tr =
                  extract_info (yt_dlp env) (get_info_options self proxy) u false
                    (tr ++ [EvLogger Ldebug ("Fetching info for URL " ++ u)])%list).
  { unfold get_info, logger_log, bind, emit, ret.
    destruct (extract_info _ _ _ _ _) as [[v|e] tr']; reflexivity. }
  repeat split.
  - exact Hcall.
  - intros v tr' H. now rewrite Hcall.
  - intros e tr' H. now rewrite Hcall.
  - intros config on_progress on_log e tr1 Hfs Hquiet Hraise Hexc.
    rewrite (download_library_raises _ _ _ _ _ _ _ _ Hfs Hraise Hexc).
    apply (download_except_returns config on_log e (mkLocals [] (VDict ∅)) tr1 Hquiet).
  - intros config on_progress on_log e tr1 Hfs Hraise Hexc.
    apply (download_library_raises_base _ _ _ _ _ _ _ _ Hfs Hraise Hexc).
Qed.

Lemma get_info_propagates_witness :
  get_info demo_service (mkEnv (raising_library "network unreachable") writable_fs)
    "https://example.org/v" None [] =
  (Raises (Exn "DownloadError" "network unreachable"),
   [EvLogger Ldebug "Fetching info for URL https://example.org/v"]) /\
  get_info demo_service (mkEnv (returning_library (VDict one_file_info)) writable_fs)
    "https://example.org/v" None [] =
  (Returns (VDict one_file_info),
   [EvLogger Ldebug "Fetching info for URL https://example.org/v"]) /\
  exists tr',
    download demo_service (mkEnv (raising_library "network unreachable") writable_fs)
      plain_config None None [] =
    (Returns (mkDownloadResult false [] (VDict ∅) ["network unreachable"]), tr').
Proof.
  split; [|split].
  - apply (proj1 (proj2 (proj2
             (get_info_propagates demo_service
                (mkEnv (raising_library "network unreachable") writable_fs)
                "https://example.org/v" None [])))).
    reflexivity.
  - apply (proj1 (proj2
             (get_info_propagates demo_service
                (mkEnv (returning_library (VDict one_file_info)) writable_fs)
                "https://example.org/v" None []))).
    reflexivity.
  - refine (proj1 (proj2 (proj2 (proj2
              (get_info_propagates demo_service
                 (mkEnv (raising_library "network unreachable") writable_fs)
                 "https://example.org/v" None []))))
              plain_config None None (Exn "DownloadError" "network unreachable")
              (started plain_config) eq_refl _ eq_refl eq_refl).
    intros cb Hcb. discriminate Hcb.
Defined.

(** * Further properties of the code *)

(** ** More of the option map *)

Section MoreMapping.

Variable self : YouTubeDownloadService.
Variable config : DownloadConfig.
Variable out_dir : string.
Variable on_progress : option ProgressCallback.
Variable on_log : option LogCallback.

Let derived := derived_options self config out_dir on_progress on_log.
Let effective_proxy := opt_or (proxy config) (_default_proxy self).

Lemma derived_proxy :
  derived !! "proxy" =
  if opt_truthy effective_proxy then Some (OVal (of_opt_str effective_proxy)) else None.
Proof.
  subst derived effective_proxy. unfold derived_options, setdefault.
  destruct (opt_truthy (opt_or (proxy config) (_default_proxy self))),
    (timeout config), (playlist_items config), (audio_only config); reflexivity.
Qed.

Lemma derived_socket_timeout :
  derived !! "socket_timeout" = (fun t => OVal (VInt t)) <$> timeout config.
Proof. subst derived. mapping_cases config. Qed.

Lemma derived_outtmpl :
  derived !! "outtmpl" = Some (OVal (VStr (os_path_join out_dir (filename_template config)))).
Proof. subst derived. mapping_cases config. Qed.

Lemma derived_logger :
  derived !! "logger" = Some (OLogger (YtDlpLogger.mk on_log)).
Proof. subst derived. mapping_cases config. Qed.

Lemma derived_dom :
  dom derived =
  {[ "outtmpl"; "format"; "noplaylist"; "logger"; "progress_hooks"; "retries" ]}
  ∪ (if opt_truthy effective_proxy then {[ "proxy" ]} else ∅)
  ∪ (if is_none (timeout config) then ∅ else {[ "socket_timeout" ]})
  ∪ (if is_none (playlist_items config) then ∅ else {[ "playlist_items" ]})
  ∪ (if audio_only config then {[ "postprocessors" ]} else ∅).
Proof.
  subst derived effective_proxy. unfold derived_options, setdefault.
  destruct (opt_truthy (opt_or (proxy config) (_default_proxy self))),
    (timeout config), (playlist_items config), (audio_only config);
    reflexivity.
Qed.

End MoreMapping.

Lemma get_info_options_proxy self (p : option string) :
  get_info_options self p !! "proxy" =
  if opt_truthy (opt_or p (_default_proxy self))
  then Some (OVal (of_opt_str (opt_or p (_default_proxy self)))) else None.
Proof.
  unfold get_info_options.
  destruct (opt_truthy (opt_or p (_default_proxy self))); reflexivity.
Qed.

Lemma opt_truthy_Some (s : string) : s <> "" -> opt_truthy (Some s) = true.
Proof.
  intros Hs. cbn. destruct (String.eqb_spec s ""); [contradiction | reflexivity].
Qed.

Lemma string_append_assoc (a b c : string) : (a ++ b) ++ c = a ++ b ++ c.
Proof.
  induction a as [|x a IH]; [reflexivity|].
  change (String x ((a ++ b) ++ c) = String x (a ++ b ++ c)). now rewrite IH.
Qed.

Lemma os_path_join_suffix (a b : string) : exists prefix, os_path_join a b = prefix ++ b.
Proof.
  unfold os_path_join. destruct (starts_with_sep b).
  - exists "". reflexivity.
  - destruct (String.eqb a "" || ends_with_sep a).
    + exists a. reflexivity.
    + exists (a ++ "/"). symmetry. apply string_append_assoc.
Qed.

(** X1: the logger object [_build_yt_dlp_options] derives under "logger",
    which is also the one in the map it returns unless the extra options
    name "logger" themselves, forwards every yt-dlp log line, at its own
    level: first to the process logger, then, when a log callback was
    given, to that callback as a LogEvent with that level, the message and
    no context. A callback that raises makes the logging call raise, but
    the process logger already has the record. *)
Theorem installed_logger_forwards self config out_dir on_progress on_log :
  exists l : YtDlpLogger.t,
    derived_options self config out_dir on_progress on_log !! "logger" = Some (OLogger l) /\
    (extra_yt_dlp_options config !! "logger" = None ->
     _build_yt_dlp_options self config out_dir on_progress on_log !! "logger"
     = Some (OLogger l)) /\
    forall (msg : string) (tr : list event),
      let forwards (method : YtDlpLogger.t -> string -> M unit) (lvl : log_level) :=
        method l msg tr =
        match on_log with
        | None => (Returns tt, (tr ++ [EvLogger lvl msg])%list)
        | Some cb =>
            (cb (mkLogEvent lvl msg None),
             (tr ++ [EvLogger lvl msg; EvOnLog (mkLogEvent lvl msg None)])%list)
        end in
      forwards YtDlpLogger.debug Ldebug /\ forwards YtDlpLogger.info Linfo /\
      forwards YtDlpLogger.warning Lwarning /\ forwards YtDlpLogger.error Lerror.
Proof.
  exists (YtDlpLogger.mk on_log). split; [apply derived_logger|]. split.
  { intros Hextra. rewrite (final_derived _ _ _ _ _ _ Hextra). apply derived_logger. }
  intros msg tr. cbv zeta.
  unfold YtDlpLogger.debug, YtDlpLogger.info, YtDlpLogger.warning, YtDlpLogger.error,
    YtDlpLogger._emit, logger_log, call_on_log, bind, emit, lift, ret.
  cbn [YtDlpLogger._on_log].
  destruct on_log as [cb|]; repeat split; try reflexivity;
    now rewrite <- app_assoc.
Qed.

Lemma installed_logger_forwards_witness :
  exists l : YtDlpLogger.t,
    _build_yt_dlp_options demo_service plain_config "downloads" None (Some failing_log)
      !! "logger" = Some (OLogger l) /\
    YtDlpLogger.error l "ERROR: unable to download" [] =
    (Raises (Exn "RuntimeError" "log sink closed"),
     [EvLogger Lerror "ERROR: unable to download";
      EvOnLog (mkLogEvent Lerror "ERROR: unable to download" None)]).
Proof.
  destruct (installed_logger_forwards demo_service plain_config "downloads" None
              (Some failing_log)) as [l [_ [Hfinal Hfwd]]].
  exists l. split; [apply Hfinal; reflexivity|].
  exact (proj2 (proj2 (proj2 (Hfwd "ERROR: unable to download" [])))).
Defined.

(** X2: the proxy [_build_yt_dlp_options] derives for [download] is
    resolved the way [get_info] resolves its own. A non-empty per-call
    proxy wins over the service default; a per-call proxy that is None or
    empty falls back to a non-empty service default; when both are None or
    empty no "proxy" key is derived at all. The map
    [_build_yt_dlp_options] returns holds the same entry (or none) unless
    the extra options name "proxy" themselves. *)
Theorem proxy_resolution self config out_dir on_progress on_log :
  let derived := derived_options self config out_dir on_progress on_log in
  let final := _build_yt_dlp_options self config out_dir on_progress on_log in
  derived !! "proxy" = get_info_options self (proxy config) !! "proxy" /\
  (forall p : string,
      proxy config = Some p -> p <> "" -> derived !! "proxy" = Some (OVal (VStr p))) /\
  (forall q : string,
      opt_truthy (proxy config) = false -> _default_proxy self = Some q -> q <> "" ->
      derived !! "proxy" = Some (OVal (VStr q))) /\
  (opt_truthy (proxy config) = false -> opt_truthy (_default_proxy self) = false ->
   derived !! "proxy" = None) /\
  (extra_yt_dlp_options config !! "proxy" = None ->
   final !! "proxy" = derived !! "proxy" /\
   final !! "proxy" = get_info_options self (proxy config) !! "proxy").
Proof.
  cbv zeta.
  assert (Hsame : derived_options self config out_dir on_progress on_log !! "proxy"
                  = get_info_options self (proxy config) !! "proxy")
    by now rewrite derived_proxy, get_info_options_proxy.
  split; [exact Hsame|].
  rewrite derived_proxy. unfold opt_or.
  repeat split.
  - intros p Hp Hne. pose proof (opt_truthy_Some p Hne) as Ht.
    rewrite Hp, Ht. cbv iota. now rewrite Ht.
  - intros q Hfalsy Hq Hne. pose proof (opt_truthy_Some q Hne) as Ht.
    rewrite Hfalsy, Hq. cbv iota. now rewrite Ht.
  - intros Hfalsy Hdefault. rewrite Hfalsy. cbv iota. now rewrite Hdefault.
  - rewrite (final_derived _ _ _ _ _ _ H). apply derived_proxy.
  - rewrite (final_derived _ _ _ _ _ _ H). exact Hsame.
Qed.

Lemma proxy_resolution_witness :
  derived_options media_service plain_config "downloads" None None !! "proxy"
    = Some (OVal (VStr "socks5://127.0.0.1:9050")) /\
  _build_yt_dlp_options media_service plain_config "downloads" None None !! "proxy"
    = get_info_options media_service (proxy plain_config) !! "proxy".
Proof.
  split.
  - apply (proj1 (proj2 (proj2
             (proxy_resolution media_service plain_config "downloads" None None)))
             "socks5://127.0.0.1:9050");
      [reflexivity | reflexivity | discriminate].
  - apply (proj2 (proj2 (proj2 (proj2
             (proxy_resolution media_service plain_config "downloads" None None))))).
    reflexivity.
Defined.

(** X3: the timeout is passed on whenever it is not None: an explicit 0 is
    set as "socket_timeout" 0 (the test is [is not None], not truthiness),
    and without a timeout the key is not set. The returned map keeps this
    unless the extra options name the key. *)
Theorem timeout_passthrough self config out_dir on_progress on_log :
  let derived := derived_options self config out_dir on_progress on_log in
  let final := _build_yt_dlp_options self config out_dir on_progress on_log in
  (forall t : Z, timeout config = Some t -> derived !! "socket_timeout" = Some (OVal (VInt t))) /\
  (timeout config = Some 0%Z -> derived !! "socket_timeout" = Some (OVal (VInt 0))) /\
  (timeout config = None -> derived !! "socket_timeout" = None) /\
  (extra_yt_dlp_options config !! "socket_timeout" = None ->
   final !! "socket_timeout" = derived !! "socket_timeout").
Proof.
  cbv zeta. rewrite derived_socket_timeout. repeat split.
  - now intros t ->.
  - now intros ->.
  - now intros ->.
  - intros Hextra. rewrite (final_derived _ _ _ _ _ _ Hextra).
    apply derived_socket_timeout.
Qed.

Lemma timeout_passthrough_witness :
  derived_options demo_service (set_field plain_config (kw_timeout (Some 0%Z)))
    "downloads" None None !! "socket_timeout" = Some (OVal (VInt 0)).
Proof.
  apply (proj1 (proj2
           (timeout_passthrough demo_service (set_field plain_config (kw_timeout (Some 0%Z)))
              "downloads" None None))).
  reflexivity.
Defined.

(** X4: the keys [_build_yt_dlp_options] derives are "outtmpl", "format",
    "noplaylist", "logger", "progress_hooks" and "retries", always, plus
    "proxy", "socket_timeout", "playlist_items" and "postprocessors" exactly
    when the proxy resolves to a non-empty value, a timeout is given,
    playlist items are given, and audio-only mode is on: no other key is
    ever derived. The returned map has the derived keys and those of the
    extra options, so the extras can replace entries but never remove one. *)
Theorem option_map_keys self config out_dir on_progress on_log :
  dom (derived_options self config out_dir on_progress on_log) =
    {[ "outtmpl"; "format"; "noplaylist"; "logger"; "progress_hooks"; "retries" ]}
    ∪ (if opt_truthy (opt_or (proxy config) (_default_proxy self)) then {[ "proxy" ]} else ∅)
    ∪ (if is_none (timeout config) then ∅ else {[ "socket_timeout" ]})
    ∪ (if is_none (playlist_items config) then ∅ else {[ "playlist_items" ]})
    ∪ (if audio_only config then {[ "postprocessors" ]} else ∅) /\
  dom (_build_yt_dlp_options self config out_dir on_progress on_log) =
    dom (extra_yt_dlp_options config)
    ∪ dom (derived_options self config out_dir on_progress on_log).
Proof.
  split; [apply derived_dom|].
  unfold _build_yt_dlp_options, update. apply dom_union_L.
Qed.

(** X5: the output template always ends with the file name template as
    given (posixpath join): a template that starts with "/" replaces the
    output directory altogether, otherwise it follows the directory, with a
    "/" between them when the directory is non-empty and does not end in
    one. *)
Theorem outtmpl_keeps_template self config out_dir on_progress on_log :
  exists s : string,
    derived_options self config out_dir on_progress on_log !! "outtmpl" = Some (OVal (VStr s)) /\
    (exists prefix : string, s = prefix ++ filename_template config) /\
    (starts_with_sep (filename_template config) = true -> s = filename_template config) /\
    (starts_with_sep (filename_template config) = false ->
     out_dir <> "" -> ends_with_sep out_dir = false ->
     s = out_dir ++ "/" ++ filename_template config).
Proof.
  eexists. split; [apply derived_outtmpl|]. split; [apply os_path_join_suffix|].
  unfold os_path_join. split.
  - now intros ->.
  - intros -> Hne ->. destruct (String.eqb_spec out_dir ""); [contradiction|reflexivity].
Qed.

Lemma outtmpl_keeps_template_witness :
  exists s : string,
    derived_options demo_service
      (set_field plain_config (kw_filename_template "/tmp/%(id)s.%(ext)s"))
      "downloads" None None !! "outtmpl" = Some (OVal (VStr s)) /\
    s = "/tmp/%(id)s.%(ext)s".
Proof.
  destruct (outtmpl_keeps_template demo_service
              (set_field plain_config (kw_filename_template "/tmp/%(id)s.%(ext)s"))
              "downloads" None None) as [s [Hs [_ [Habs _]]]].
  exists s. split; [exact Hs | apply Habs; reflexivity].
Defined.

(** [get_info] asks the library for exactly "skip_download", "quiet"
    and "no_warnings", each true, plus "proxy" when one resolves to a
    non-empty value: it installs neither a logger nor a progress hook. *)
Theorem get_info_option_map self (p : option string) :
  let opts := get_info_options self p in
  opts !! "skip_download" = Some (OVal (VBool true)) /\
  opts !! "quiet" = Some (OVal (VBool true)) /\
  opts !! "no_warnings" = Some (OVal (VBool true)) /\
  dom opts =
    {[ "skip_download"; "quiet"; "no_warnings" ]}
    ∪ (if opt_truthy (opt_or p (_default_proxy self)) then {[ "proxy" ]} else ∅) /\
  opts !! "logger" = None /\ opts !! "progress_hooks" = None.
Proof.
  cbv zeta. unfold get_info_options.
  destruct (opt_truthy (opt_or p (_default_proxy self))); repeat split; reflexivity.
Qed.

(** ** More of [download] *)



Lemma download_independent_of_default_dir self env config on_progress on_log d' tr :
  effective_output_dir (mkService d' (_default_proxy self)) config
    = effective_output_dir self config ->
  download (mkService d' (_default_proxy self)) env config on_progress on_log tr =
  download self env config on_progress on_log tr.
Proof.
  intros Hdir. unfold download. rewrite Hdir. reflexivity.
Qed.

(** X6: which directory [download] creates and writes to. With a non-empty
    [config.output_dir] the service's default output directory plays no
    part: a service with any other default directory behaves the same. With
    an empty [config.output_dir] the call behaves as with the service's
    default directory written into the config. *)
Theorem output_dir_choice self env config on_progress on_log tr :
  (output_dir config <> "" ->
   forall d' : string,
     download (mkService d' (_default_proxy self)) env config on_progress on_log tr =
     download self env config on_progress on_log tr) /\
  (output_dir config = "" ->
   download self env config on_progress on_log tr =
   download self env (set_field config (kw_output_dir (_default_output_dir self)))
     on_progress on_log tr).
Proof.
  split.
  - intros Hne d'. apply download_independent_of_default_dir.
    unfold effective_output_dir, str_or.
    destruct (String.eqb_spec (output_dir config) ""); [contradiction|reflexivity].
  - intros Hempty. unfold download, effective_output_dir. cbn [set_field output_dir url].
    rewrite Hempty. unfold str_or at 1 2 3. cbn [String.eqb].
    unfold str_or. destruct (String.eqb (_default_output_dir self) ""); reflexivity.
Qed.

Lemma output_dir_choice_witness :
  download (mkService "media" None)
    (mkEnv (returning_library (VDict one_file_info)) writable_fs)
    plain_config None None [] =
  download demo_service
    (mkEnv (returning_library (VDict one_file_info)) writable_fs)
    plain_config None None [].
Proof.
  apply (proj1 (output_dir_choice demo_service
                  (mkEnv (returning_library (VDict one_file_info)) writable_fs)
                  plain_config None None [])).
  discriminate.
Defined.

(** X7: when the output directory cannot be created, [download] raises
    that very exception. Only the start record and the attempt are on the
    trace: the library is not called, nothing is logged as failed and the
    log callback is not invoked. *)
Theorem makedirs_failure_propagates self env config on_progress on_log tr (e : exn) :
  os_makedirs env (effective_output_dir self config) = Raises e ->
  download self env config on_progress on_log tr =
  (Raises e,
   (tr ++ [EvLogger Linfo ("Starting download for URL " ++ url config);
           EvMakedirs (effective_output_dir self config)])%list).
Proof. apply download_makedirs_raises. Qed.

Lemma makedirs_failure_propagates_witness :
  download demo_service (mkEnv (raising_library "network unreachable") readonly_fs)
    plain_config (Some quiet_progress) (Some failing_log) [] =
  (Raises (Exn "PermissionError" "[Errno 13] Permission denied: 'downloads'"),
   started plain_config).
Proof.
  apply (makedirs_failure_propagates demo_service
           (mkEnv (raising_library "network unreachable") readonly_fs)
           plain_config (Some quiet_progress) (Some failing_log) []).
  reflexivity.
Defined.

(** X8: what a failed library call leaves behind. When the call raises an
    instance of [Exception], the process logger gets one error record
    "Download failed for URL <url>: <message>"; then the log callback, if
    any, is called once with a LogEvent of level error, that same text and
    no context. If the callback returns, the result is success=false with
    errors=[message], no file paths and the empty info map; if it raises,
    [download] raises the callback's exception instead of returning. When
    the call raises anything else ([KeyboardInterrupt], [SystemExit]),
    [download] raises it unchanged: nothing is logged as failed and the log
    callback is not called. *)
Theorem library_failure_is_reported self env config on_progress on_log tr e tr1 :
  os_makedirs env (effective_output_dir self config) = Returns tt ->
  download_call self env config on_progress on_log tr = (Raises e, tr1) ->
  let msg := "Download failed for URL " ++ url config ++ ": " ++ exn_str e in
  let failed := mkDownloadResult false [] (VDict ∅) [exn_str e] in
  download self env config on_progress on_log tr =
  if is_Exception e then
    match on_log with
    | None => (Returns failed, (tr1 ++ [EvLogger Lerror msg])%list)
    | Some cb =>
        (match cb (mkLogEvent Lerror msg None) with
         | Returns _ => Returns failed
         | Raises e' => Raises e'
         end,
         (tr1 ++ [EvLogger Lerror msg; EvOnLog (mkLogEvent Lerror msg None)])%list)
    end
  else (Raises e, tr1).
Proof.
  intros Hfs Hcall. cbv zeta.
  destruct (is_Exception e) eqn:Hexc.
  - rewrite (download_library_raises _ _ _ _ _ _ _ _ Hfs Hcall Hexc).
    unfold download_except, logger_log, call_on_log, bind, emit, lift, ret.
    destruct on_log as [cb|]; [|reflexivity].
    rewrite <- app_assoc. cbn [app].
    destruct (cb _) as [[]|e']; reflexivity.
  - apply (download_library_raises_base _ _ _ _ _ _ _ _ Hfs Hcall Hexc).
Qed.

Lemma library_failure_is_reported_witness :
  download demo_service (mkEnv (raising_library "network unreachable") writable_fs)
    plain_config None (Some quiet_log) [] =
  (Returns (mkDownloadResult false [] (VDict ∅) ["network unreachable"]),
   (started plain_config ++
    [EvLogger Lerror "Download failed for URL https://example.org/v: network unreachable";
     EvOnLog (mkLogEvent Lerror
                "Download failed for URL https://example.org/v: network unreachable"
                None)])%list) /\
  download demo_service (mkEnv interrupted_library writable_fs)
    plain_config None (Some quiet_log) [] =
  (Raises (BaseExn "KeyboardInterrupt" ""), started plain_config).
Proof.
  split.
  - exact (library_failure_is_reported demo_service
             (mkEnv (raising_library "network unreachable") writable_fs)
             plain_config None (Some quiet_log) []
             (Exn "DownloadError" "network unreachable") (started plain_config)
             eq_refl eq_refl).
  - exact (library_failure_is_reported demo_service
             (mkEnv interrupted_library writable_fs)
             plain_config None (Some quiet_log) []
             (BaseExn "KeyboardInterrupt" "") (started plain_config)
             eq_refl eq_refl).
Defined.





(** ** More of the progress hook *)

(** X11: when the hook delivers and when it raises. A truthy top-level
    "filename" is used as it is and "info_dict" is never looked at, so the
    event is delivered even when "info_dict" is ill-shaped. Without one,
    an "info_dict" that is present but not a dictionary makes the hook raise
    AttributeError, and the callback is not called. *)
Theorem hook_filename_short_circuit (cb : ProgressCallback) (st : gmap string pyval)
    (tr : list event) :
  (truthy (dict_get st "filename") = true ->
   exists ev : ProgressEvent,
     _make_progress_hook (Some cb) st tr = (cb ev, (tr ++ [EvOnProgress ev])%list) /\
     filename ev = dict_get st "filename" /\ raw ev = st) /\
  (truthy (dict_get st "filename") = false ->
   forall v : pyval,
     st !! "info_dict" = Some v -> (forall d, v <> VDict d) ->
     _make_progress_hook (Some cb) st tr = (Raises (AttributeError v "get"), tr)).
Proof.
  split.
  - intros Htop. eexists. split.
    + apply hook_delivers. unfold hook_filename. now rewrite Htop.
    + split; reflexivity.
  - intros Htop v Hinfo Hshape. apply hook_raises.
    unfold hook_filename, dict_get_default. rewrite Htop, Hinfo. cbn [default].
    destruct v; try reflexivity. now destruct (Hshape d).
Qed.

Lemma hook_filename_short_circuit_witness :
  (exists ev : ProgressEvent,
      _make_progress_hook (Some quiet_progress) named_broken_progress [] =
        (quiet_progress ev, ([] ++ [EvOnProgress ev])%list) /\
      filename ev = dict_get named_broken_progress "filename" /\
      raw ev = named_broken_progress) /\
  _make_progress_hook (Some quiet_progress) broken_progress [] =
    (Raises (AttributeError VNone "get"), []).
Proof.
  split.
  - apply (proj1 (hook_filename_short_circuit quiet_progress named_broken_progress [])).
    reflexivity.
  - apply (proj2 (hook_filename_short_circuit quiet_progress broken_progress [])
             eq_refl VNone eq_refl).
    intros d Hd. discriminate Hd.
Defined.

(** ** The convenience methods *)

Lemma first_clash_none (explicit config_kwargs : list kwarg) :
  (forall k, In k explicit -> kwargs_has (kwarg_name k) config_kwargs = false) ->
  first_clash explicit config_kwargs = None.
Proof.
  intros Hfree. unfold first_clash.
  destruct (find _ config_kwargs) as [k|] eqn:Hfind; [|reflexivity].
  apply find_some in Hfind as [Hin Hhas].
  unfold kwargs_has in Hhas. apply existsb_exists in Hhas as [k' [Hk' Heq]].
  apply String.eqb_eq in Heq.
  assert (Hcontra : kwargs_has (kwarg_name k') config_kwargs = true).
  { unfold kwargs_has. apply existsb_exists. exists k. split; [exact Hin|].
    apply String.eqb_eq. congruence. }
  rewrite (Hfree k' Hk') in Hcontra. discriminate.
Qed.

Lemma first_clash_some (explicit config_kwargs : list kwarg) (k : kwarg) :
  In k explicit -> kwargs_has (kwarg_name k) config_kwargs = true ->
  exists name, first_clash explicit config_kwargs = Some name.
Proof.
  intros Hin Hhas. unfold first_clash.
  destruct (find _ config_kwargs) as [k'|] eqn:Hfind; [eexists; reflexivity|].
  exfalso. unfold kwargs_has in Hhas. apply existsb_exists in Hhas as [k' [Hk' Heq]].
  pose proof (find_none _ _ Hfind k' Hk') as Hnone. cbn in Hnone.
  assert (Htrue : kwargs_has (kwarg_name k') explicit = true).
  { unfold kwargs_has. apply existsb_exists. exists k. split; [exact Hin|].
    apply String.eqb_eq. apply String.eqb_eq in Heq. congruence. }
  congruence.
Qed.

Lemma kwargs_has_app name (l1 l2 : list kwarg) :
  kwargs_has name (l1 ++ l2)%list = kwargs_has name l1 || kwargs_has name l2.
Proof. apply existsb_app. Qed.

Lemma kwargs_has_setdefault name (k : kwarg) (l : list kwarg) :
  kwargs_has name (kwargs_setdefault k l) =
  kwargs_has name l || (negb (kwargs_has (kwarg_name k) l) && String.eqb (kwarg_name k) name).
Proof.
  unfold kwargs_setdefault. destruct (kwargs_has (kwarg_name k) l) eqn:Hk.
  - now rewrite orb_false_r.
  - rewrite kwargs_has_app. cbn. now rewrite orb_false_r.
Qed.

(** What a run of keyword assignments leaves in the fields the methods fix. *)
Lemma fold_set_field_url (l : list kwarg) (c : DownloadConfig) :
  url (fold_left set_field l c) = url c.
Proof.
  revert c. induction l as [|k l IH]; intros c; [reflexivity|].
  cbn [fold_left]. rewrite IH. now destruct k.
Qed.

Lemma fold_set_field_output_dir (l : list kwarg) (c : DownloadConfig) :
  kwargs_has "output_dir" l = false ->
  output_dir (fold_left set_field l c) = output_dir c.
Proof.
  revert c. induction l as [|k l IH]; intros c Hfree; [reflexivity|].
  cbn in Hfree. apply orb_false_elim in Hfree as [Hk Hl].
  cbn [fold_left]. rewrite (IH _ Hl). destruct k; try reflexivity. discriminate.
Qed.

Lemma fold_set_field_audio_only (l : list kwarg) (c : DownloadConfig) :
  kwargs_has "audio_only" l = false ->
  audio_only (fold_left set_field l c) = audio_only c.
Proof.
  revert c. induction l as [|k l IH]; intros c Hfree; [reflexivity|].
  cbn in Hfree. apply orb_false_elim in Hfree as [Hk Hl].
  cbn [fold_left]. rewrite (IH _ Hl). destruct k; try reflexivity. discriminate.
Qed.

Lemma fold_set_field_playlist_items (l : list kwarg) (c : DownloadConfig) :
  kwargs_has "playlist_items" l = false ->
  playlist_items (fold_left set_field l c) = playlist_items c.
Proof.
  revert c. induction l as [|k l IH]; intros c Hfree; [reflexivity|].
  cbn in Hfree. apply orb_false_elim in Hfree as [Hk Hl].
  cbn [fold_left]. rewrite (IH _ Hl). destruct k; try reflexivity. discriminate.
Qed.

Lemma fold_set_field_format (l : list kwarg) (c : DownloadConfig) :
  kwargs_has "format" l = false ->
  format (fold_left set_field l c) = format c.
Proof.
  revert c. induction l as [|k l IH]; intros c Hfree; [reflexivity|].
  cbn in Hfree. apply orb_false_elim in Hfree as [Hk Hl].
  cbn [fold_left]. rewrite (IH _ Hl). destruct k; try reflexivity. discriminate.
Qed.

Lemma effective_output_dir_default self config :
  output_dir config = _default_output_dir self ->
  effective_output_dir self config = _default_output_dir self.
Proof.
  intros H. unfold effective_output_dir, str_or. rewrite H.
  now destruct (String.eqb (_default_output_dir self) "").
Qed.

Lemma new_DownloadConfig_accepted (u : string) (explicit config_kwargs : list kwarg) :
  (forall k, In k explicit -> kwargs_has (kwarg_name k) config_kwargs = false) ->
  new_DownloadConfig u explicit config_kwargs =
  Returns (fold_left set_field config_kwargs (fold_left set_field explicit (default_config u))).
Proof.
  intros Hfree. unfold new_DownloadConfig.
  rewrite (first_clash_none _ _ Hfree). now rewrite fold_left_app.
Qed.

Lemma new_DownloadConfig_clash (u : string) (explicit config_kwargs : list kwarg) (k : kwarg) :
  In k explicit -> kwargs_has (kwarg_name k) config_kwargs = true ->
  exists e, new_DownloadConfig u explicit config_kwargs = Raises e /\
            exn_class e = "TypeError".
Proof.
  intros Hin Hhas. unfold new_DownloadConfig.
  destruct (first_clash_some _ _ k Hin Hhas) as [name ->].
  eexists. split; reflexivity.
Qed.

(** X12: [download_video] downloads the URL it is given into the service's
    default output directory: for keyword arguments that do not name
    [output_dir] it is [download] on a config with that URL and that
    directory, and with the declared defaults (format "best", not
    audio-only) in the fields the keywords leave alone. *)
Theorem download_video_config self env (u : string) on_progress on_log
    (config_kwargs : list kwarg) tr :
  kwargs_has "output_dir" config_kwargs = false ->
  exists config : DownloadConfig,
    download_video self env u on_progress on_log config_kwargs tr =
      download self env config on_progress on_log tr /\
    url config = u /\
    output_dir config = _default_output_dir self /\
    effective_output_dir self config = _default_output_dir self /\
    (kwargs_has "format" config_kwargs = false -> format config = "best") /\
    (kwargs_has "audio_only" config_kwargs = false -> audio_only config = false) /\
    (kwargs_has "playlist_items" config_kwargs = false -> playlist_items config = None).
Proof.
  intros Hdir. unfold download_video.
  assert (Hnew := new_DownloadConfig_accepted u
                    [kw_output_dir (_default_output_dir self)] config_kwargs).
  rewrite Hnew by (intros k [<-|[]]; exact Hdir).
  eexists. split; [reflexivity|].
  assert (Hout : output_dir
                   (fold_left set_field config_kwargs
                      (fold_left set_field [kw_output_dir (_default_output_dir self)]
                         (default_config u))) = _default_output_dir self)
    by now rewrite fold_set_field_output_dir.
  repeat split.
  - now rewrite fold_set_field_url.
  - exact Hout.
  - apply effective_output_dir_default, Hout.
  - intros H. now rewrite fold_set_field_format.
  - intros H. now rewrite fold_set_field_audio_only.
  - intros H. now rewrite fold_set_field_playlist_items.
Qed.

Lemma download_video_config_witness :
  exists config : DownloadConfig,
    download_video media_service
      (mkEnv (returning_library (VDict one_file_info)) writable_fs)
      "https://example.org/v" None None [kw_retries 5] [] =
      download media_service
        (mkEnv (returning_library (VDict one_file_info)) writable_fs)
        config None None [] /\
    url config = "https://example.org/v" /\
    output_dir config = "media" /\
    effective_output_dir media_service config = "media" /\
    (kwargs_has "format" [kw_retries 5] = false -> format config = "best") /\
    (kwargs_has "audio_only" [kw_retries 5] = false -> audio_only config = false) /\
    (kwargs_has "playlist_items" [kw_retries 5] = false -> playlist_items config = None).
Proof.
  apply (download_video_config media_service
           (mkEnv (returning_library (VDict one_file_info)) writable_fs)
           "https://example.org/v" None None [kw_retries 5] []).
  reflexivity.
Defined.

(** X13: [download_audio] turns audio-only mode on and, unlike a bare
    [DownloadConfig(audio_only=True)], makes "bestaudio/best" the format
    when the caller names none: the option map its [download] builds then
    asks for "bestaudio/best" (unless the extra options name a format). A
    format keyword the caller does give is kept. *)
Theorem download_audio_config self env (u : string) on_progress on_log
    (config_kwargs : list kwarg) tr :
  kwargs_has "output_dir" config_kwargs = false ->
  kwargs_has "audio_only" config_kwargs = false ->
  exists config : DownloadConfig,
    download_audio self env u on_progress on_log config_kwargs tr =
      download self env config on_progress on_log tr /\
    url config = u /\
    audio_only config = true /\
    effective_output_dir self config = _default_output_dir self /\
    (kwargs_has "format" config_kwargs = false ->
     format config = "bestaudio/best" /\
     (extra_yt_dlp_options config !! "format" = None ->
      _build_yt_dlp_options self config (effective_output_dir self config)
        on_progress on_log !! "format" = Some (OVal (VStr "bestaudio/best")))) /\
    (forall (pre post : list kwarg) (f : string),
        config_kwargs = (pre ++ kw_format f :: post)%list ->
        kwargs_has "format" post = false -> format config = f).
Proof.
  intros Hdir Haudio. unfold download_audio.
  set (kwargs' := kwargs_setdefault (kw_format "bestaudio/best") config_kwargs).
  assert (Hdir' : kwargs_has "output_dir" kwargs' = false).
  { subst kwargs'. rewrite kwargs_has_setdefault, Hdir. cbn. apply andb_false_r. }
  assert (Haudio' : kwargs_has "audio_only" kwargs' = false).
  { subst kwargs'. rewrite kwargs_has_setdefault, Haudio. cbn. apply andb_false_r. }
  assert (Hnew := new_DownloadConfig_accepted u
                    [kw_output_dir (_default_output_dir self); kw_audio_only true] kwargs').
  rewrite Hnew by (intros k [<-|[<-|[]]]; assumption).
  eexists. split; [reflexivity|].
  set (start := fold_left set_field
                  [kw_output_dir (_default_output_dir self); kw_audio_only true]
                  (default_config u)).
  assert (Hformat : kwargs_has "format" config_kwargs = false ->
                    format (fold_left set_field kwargs' start) = "bestaudio/best").
  { intros Hnone. subst kwargs'. unfold kwargs_setdefault. cbn [kwarg_name].
    rewrite Hnone, fold_left_app. reflexivity. }
  repeat split.
  - now rewrite fold_set_field_url.
  - now rewrite fold_set_field_audio_only.
  - apply effective_output_dir_default. now rewrite fold_set_field_output_dir.
  - apply Hformat, H.
  - intros Hextra. rewrite (final_derived _ _ _ _ _ _ Hextra), derived_format.
    now rewrite (Hformat H).
  - intros pre post f Hsplit Hpost.
    assert (Hhas : kwargs_has "format" config_kwargs = true).
    { rewrite Hsplit, kwargs_has_app. cbn. apply orb_true_r. }
    subst kwargs'. unfold kwargs_setdefault. cbn [kwarg_name]. rewrite Hhas, Hsplit.
    rewrite fold_left_app. cbn [fold_left]. now rewrite fold_set_field_format.
Qed.

Lemma download_audio_config_witness :
  exists config : DownloadConfig,
    download_audio demo_service
      (mkEnv (returning_library (VDict one_file_info)) writable_fs)
      "https://example.org/v" None None [] [] =
      download demo_service
        (mkEnv (returning_library (VDict one_file_info)) writable_fs)
        config None None [] /\
    audio_only config = true /\
    format config = "bestaudio/best".
Proof.
  destruct (download_audio_config demo_service
              (mkEnv (returning_library (VDict one_file_info)) writable_fs)
              "https://example.org/v" None None [] [] eq_refl eq_refl)
    as [config [Hrun [_ [Haudio [_ [Hformat _]]]]]].
  exists config. split; [exact Hrun|]. split; [exact Haudio|].
  exact (proj1 (Hformat eq_refl)).
Defined.



(** X15: the convenience methods cannot be given the fields they fix
    themselves. An [output_dir] keyword makes each of the three raise a
    TypeError, and so does an [audio_only] keyword to [download_audio];
    this happens before anything else: nothing is logged, no directory is
    created and the library is not called. *)
Theorem wrappers_reject_fixed_keywords self env (u : string) on_progress on_log
    (config_kwargs : list kwarg) tr :
  (kwargs_has "output_dir" config_kwargs = true ->
   (exists e, download_video self env u on_progress on_log config_kwargs tr = (Raises e, tr)
              /\ exn_class e = "TypeError") /\
   (exists e, download_audio self env u on_progress on_log config_kwargs tr = (Raises e, tr)
              /\ exn_class e = "TypeError") /\
   (forall items,
       exists e, download_playlist self env u items on_progress on_log config_kwargs tr
                 = (Raises e, tr) /\ exn_class e = "TypeError")) /\
  (kwargs_has "audio_only" config_kwargs = true ->
   exists e, download_audio self env u on_progress on_log config_kwargs tr = (Raises e, tr)
             /\ exn_class e = "TypeError").
Proof.
  unfold download_video, download_audio, download_playlist, bind, lift.
  split; [intros Hdir; repeat split; [| |intros items] | intros Haudio].
  - destruct (new_DownloadConfig_clash u [kw_output_dir (_default_output_dir self)]
                config_kwargs (kw_output_dir (_default_output_dir self)))
      as [e [-> Hclass]]; [now left | exact Hdir | eauto].
  - destruct (new_DownloadConfig_clash u
                [kw_output_dir (_default_output_dir self); kw_audio_only true]
                (kwargs_setdefault (kw_format "bestaudio/best") config_kwargs)
                (kw_output_dir (_default_output_dir self)))
      as [e [-> Hclass]]; [now left | | eauto].
    rewrite kwargs_has_setdefault. cbn [kwarg_name]. now rewrite Hdir.
  - destruct (new_DownloadConfig_clash u
                [kw_output_dir (_default_output_dir self); kw_playlist_items items]
                config_kwargs (kw_output_dir (_default_output_dir self)))
      as [e [-> Hclass]]; [now left | exact Hdir | eauto].
  - destruct (new_DownloadConfig_clash u
                [kw_output_dir (_default_output_dir self); kw_audio_only true]
                (kwargs_setdefault (kw_format "bestaudio/best") config_kwargs)
                (kw_audio_only true))
      as [e [-> Hclass]]; [right; now left | | eauto].
    rewrite kwargs_has_setdefault. cbn [kwarg_name]. now rewrite Haudio.
Qed.

Lemma wrappers_reject_fixed_keywords_witness :
  exists e,
    download_video demo_service
      (mkEnv (returning_library (VDict one_file_info)) writable_fs)
      "https://example.org/v" None None [kw_output_dir "elsewhere"] [] = (Raises e, [])
    /\ exn_class e = "TypeError".
Proof.
  apply (proj1 (wrappers_reject_fixed_keywords demo_service
                  (mkEnv (returning_library (VDict one_file_info)) writable_fs)
                  "https://example.org/v" None None [kw_output_dir "elsewhere"] [])).
  reflexivity.
Defined.

(** ** The HTTP example *)



(** X17: what [POST /download] asks of the library. The format is the
    request's when that is a non-empty string and "best" otherwise, also
    for an audio-only request (which adds the audio extraction entry but is
    never given "bestaudio/best" by the endpoint); noplaylist is true iff
    the request has no playlist items; no progress hook, proxy or socket
    timeout is ever set, retries is 3, and files go to "downloads". *)
Theorem api_option_map (req : api_example_fastapi.DownloadRequest) :
  let config := api_example_fastapi.config_of_request req in
  let opts :=
    _build_yt_dlp_options api_example_fastapi.service config
      (effective_output_dir api_example_fastapi.service config) None None in
  effective_output_dir api_example_fastapi.service config = "downloads" /\
  opts !! "format" =
    Some (OVal (VStr match api_example_fastapi.format req with
                     | Some f => if String.eqb f "" then "best" else f
                     | None => "best"
                     end)) /\
  opts !! "noplaylist" =
    Some (OVal (VBool (is_none (api_example_fastapi.playlist_items req)))) /\
  opts !! "postprocessors" =
    (if api_example_fastapi.audio_only req
     then Some (OVal (VList [audio_postprocessor])) else None) /\
  opts !! "progress_hooks" = Some (OHooks []) /\
  opts !! "retries" = Some (OVal (VInt 3)) /\
  opts !! "proxy" = None /\
  opts !! "socket_timeout" = None.
Proof.
  cbv zeta.
  assert (Hextra : forall k : string,
             extra_yt_dlp_options (api_example_fastapi.config_of_request req) !! k = None)
    by (intros k; apply lookup_empty).
  repeat split.
  - rewrite (final_derived _ _ _ _ _ _ (Hextra _)), derived_format. cbn.
    destruct (api_example_fastapi.format req); reflexivity.
  - now rewrite (final_derived _ _ _ _ _ _ (Hextra _)), derived_noplaylist.
  - now rewrite (final_derived _ _ _ _ _ _ (Hextra _)), derived_postprocessors.
  - now rewrite (final_derived _ _ _ _ _ _ (Hextra _)), derived_progress_hooks.
  - now rewrite (final_derived _ _ _ _ _ _ (Hextra _)), derived_retries.
  - now rewrite (final_derived _ _ _ _ _ _ (Hextra _)), derived_proxy.
  - now rewrite (final_derived _ _ _ _ _ _ (Hextra _)), derived_socket_timeout.
Qed.
